(** * Water ATM session controller: a shallow embedding

    This development embeds the two water-vending clients of the repository,

    - [water_dispense_with_rfid.py]  (module [Rfid]), and
    - [mqtt_dummy_water_dispence.py] (module [Dummy]),

    and checks the statements of the design specification against them.

    Modelling conventions.

    - Python module globals ([authenticated], [balance], [current_card_uid])
      are a record threaded through a small state/exception/output monad.
    - Everything the program observes from outside is an explicit input:
      the parsed payload of a message, the samples of [time.time()], the
      results of [reader.read()], the values of [random.randint(1, 5)], the
      answers of [client.is_connected()], [client.publish(...).rc] and
      [client.reconnect()].
    - Everything the program does to the outside is an [event] appended to
      an output trace: logger calls, publishes, sleeps, reconnect attempts.
    - Python [int] and [float] values are exact rationals ([Q]).  Binary
      rounding error and the non-standard literals [NaN] and [Infinity] are
      outside the model; the one place where the difference between [int]
      and [float] shows, the conversion of an integer balance too large for
      a float at the debit, is modelled ([Py.in_float_range]).  Statements
      about numbers use the setoid equality [==] of [Q].
    - A callback is called with the positional arguments its caller passes;
      a call that does not fit the signature raises [TypeError] before the
      body is entered.
    - The two [while] loops that depend on the outside world (the metering
      window and the reconnect loop) consume a finite list of observations;
      when the list ends before the loop does the run is [Running]. *)

From Stdlib Require Import ZArith QArith Qround Qminmax Bool List String Lia.
From Stdlib Require Import DecimalString.
Import ListNotations.

Local Open Scope Q_scope.
#[local] Set Warnings "-register-all".

(** ** Python values *)

Module Py.

(** The result of [json.loads]: the dict of a JSON object is kept as the list
    of its items. *)
Inductive json : Type :=
| JNull
| JBool (b : bool)
| JNum (q : Q)
| JStr (s : string)
| JArr (items : list json)
| JObj (items : list (string * json)).

(** Truth value of an object in a condition ([if user_exists:]). *)
Definition truthy (v : json) : bool :=
  match v with
  | JNull => false
  | JBool b => b
  | JNum q => negb (Qeq_bool q 0)
  | JStr s => negb (String.eqb s EmptyString)
  | JArr l => match l with [] => false | _ :: _ => true end
  | JObj l => match l with [] => false | _ :: _ => true end
  end.

(** [d.get(key, default)] on the items of a dict. *)
Fixpoint dict_get (key : string) (d : list (string * json)) (default : json)
  : json :=
  match d with
  | [] => default
  | (k, v) :: rest => if String.eqb k key then v else dict_get key rest default
  end.

Fixpoint dict_has (key : string) (d : list (string * json)) : bool :=
  match d with
  | [] => false
  | (k, _) :: rest => if String.eqb k key then true else dict_has key rest
  end.

(** The operand of an arithmetic operator: [int], [float] and [bool] (a
    subclass of [int]) are numbers, everything else makes [-] raise
    [TypeError].  Whether the operation then goes through on a number is a
    matter of its size, see [in_float_range]. *)
Definition as_number (v : json) : option Q :=
  match v with
  | JNum q => Some q
  | JBool b => Some (if b then 1 else 0)
  | _ => None
  end.

(** [a < b] and [a > b] on numbers. *)
Definition Qltb (a b : Q) : bool := negb (Qle_bool b a).
Definition Qgtb (a b : Q) : bool := Qltb b a.

(** The integers that [float(n)] accepts are those of absolute value below
    [2^1024 - 2^970], half way between the largest float and [2^1024]; at
    and beyond it the conversion raises [OverflowError].  Every finite
    float is below it.  As the infinities are not values of the model, a
    number at or beyond the limit can only be a Python [int]. *)
Definition float_limit : Z := (2 ^ 1024 - 2 ^ 970)%Z.

Definition in_float_range (q : Q) : bool :=
  Qltb (- inject_Z float_limit) q && Qltb q (inject_Z float_limit).

(** [max(a, b)]: the first argument is kept unless the second is greater. *)
Definition py_max (a b : Q) : Q := if Qgtb b a then b else a.

(** Rounding to the nearest integer, ties to even. *)
Definition round_half_even (x : Q) : Z :=
  let f := Qfloor x in
  match ((x - inject_Z f) ?= (1 # 2))%Q with
  | Lt => f
  | Gt => (f + 1)%Z
  | Eq => if Z.even f then f else (f + 1)%Z
  end.

(** [round(x, 2)]. *)
Definition py_round2 (x : Q) : Q :=
  inject_Z (round_half_even (x * 100)) / 100.

(** [str(n)] for an [int]. *)
Definition str_of_int (n : Z) : string :=
  NilZero.string_of_int (Z.to_int n).

End Py.

(** ** Effects *)

Module Eff.

Import Py.

Inductive level : Type := INFO | WARNING | ERROR.

(** What the program does to the outside world.  A log entry carries the
    level and the format string of the logger call. *)
Inductive event : Type :=
| Log (lvl : level) (fmt : string)
| Publish (topic : string) (payload : json)
| Sleep (seconds : Q)
| Reconnect.

Inductive exn : Type :=
| UnicodeDecodeError
| JSONDecodeError
| AttributeError
| TypeError
| OverflowError
| ReaderError.

(** How a call ends.  [Running] is not a Python outcome: it says that the
    observations supplied to a loop ended before the loop did. *)
Inductive completion (A : Type) : Type :=
| Returned (a : A)
| Raised (e : exn)
| Running.

Arguments Returned {A} a.
Arguments Raised {A} e.
Arguments Running {A}.

Record run (S A : Type) : Type := mkRun {
  result : completion A;
  final : S;
  trace : list event
}.

Arguments mkRun {S A} result final trace.
Arguments result {S A} r.
Arguments final {S A} r.
Arguments trace {S A} r.

Definition M (S A : Type) : Type := S -> run S A.

Definition ret {S A} (a : A) : M S A := fun g => mkRun (Returned a) g [].

Definition bind {S A B} (c : M S A) (k : A -> M S B) : M S B :=
  fun g =>
    match c g with
    | mkRun (Returned a) g1 tr1 =>
        match k a g1 with
        | mkRun r g2 tr2 => mkRun r g2 (tr1 ++ tr2)
        end
    | mkRun (Raised e) g1 tr1 => mkRun (Raised e) g1 tr1
    | mkRun Running g1 tr1 => mkRun Running g1 tr1
    end.

Definition raise {S A} (e : exn) : M S A := fun g => mkRun (Raised e) g [].

Definition stall {S A} : M S A := fun g => mkRun Running g [].

Definition emit {S} (e : event) : M S unit :=
  fun g => mkRun (Returned tt) g [e].

Definition log {S} (lvl : level) (fmt : string) : M S unit :=
  emit (Log lvl fmt).

Definition get {S} : M S S := fun g => mkRun (Returned g) g [].

Definition modify {S} (f : S -> S) : M S unit :=
  fun g => mkRun (Returned tt) (f g) [].

(** [try: c  except Exception as e: h e]. *)
Definition try_except {S A} (c : M S A) (h : exn -> M S A) : M S A :=
  fun g =>
    match c g with
    | mkRun (Raised e) g1 tr1 =>
        match h e g1 with
        | mkRun r g2 tr2 => mkRun r g2 (tr1 ++ tr2)
        end
    | r => r
    end.

Declare Scope py_scope.
Delimit Scope py_scope with py.

Notation "x <- c ;; k" := (bind c (fun x => k))
  (at level 61, c at next level, right associativity) : py_scope.
Notation "c ;; k" := (bind c (fun _ => k))
  (at level 61, right associativity) : py_scope.

(** An inbound MQTT message.  [payload] records how far
    [json.loads(msg.payload.decode())] gets on the bytes received. *)
Inductive payload : Type :=
| NotUtf8
| NotJson
| Json (v : json).

Record message : Type := mkMessage {
  retain : bool;
  topic : string;
  body : payload
}.

(** [msg.payload.decode()] *)
Definition decode {S} (p : payload) : M S payload :=
  match p with
  | NotUtf8 => raise UnicodeDecodeError
  | _ => ret p
  end.

(** [json.loads(payload)] *)
Definition json_loads {S} (p : payload) : M S json :=
  match p with
  | Json v => ret v
  | _ => raise JSONDecodeError
  end.

(** [data.get(key, default)]: only a dict has the method. *)
Definition data_get {S} (data : json) (key : string) (default : json)
  : M S json :=
  match data with
  | JObj d => ret (dict_get key d default)
  | _ => raise AttributeError
  end.

(** The client as the callbacks see it. *)
Record client : Type := mkClient {
  is_connected : bool;
  publish_rc : Z
}.

Definition MQTT_ERR_SUCCESS : Z := 0.

(** [reader.read()]: a card identifier, or an exception. *)
Inductive read_result : Type :=
| ReadUid (uid : Z)
| ReadRaises.

(** [uid != initial_uid], where [initial_uid] may be [None]. *)
Definition uid_differs (uid : Z) (known : option Z) : bool :=
  match known with
  | Some u => negb (Z.eqb uid u)
  | None => true
  end.

(** A positional argument that the client passes to [on_disconnect] after
    [client] and [userdata]: its [DisconnectFlags], a reason code (by its
    integer value: 0 for success, 128 for a connection that was lost), or
    the properties of the packet. *)
Inductive arg : Type :=
| Flags
| Code (rc : Z)
| Props.

(** [a == n] for an [int] [n]: only a reason code can be equal to one. *)
Definition arg_eqb (a : arg) (n : Z) : bool :=
  match a with
  | Code rc => Z.eqb rc n
  | _ => false
  end.

(** What a client created with [CallbackAPIVersion.VERSION2], as [main] does
    in both programs, passes when the connection ends with reason code [rc]:
    [on_disconnect(client, userdata, disconnect_flags, reason_code,
    properties)]. *)
Definition version2_disconnect (rc : Z) : list arg := [Flags; Code rc; Props].

(** The body of both [on_disconnect] callbacks:

      while True:
          try: reconnect(); break
          except Exception: sleep(5)

    [attempts] lists the outcomes of the successive [client.reconnect()]
    calls ([true]: it returned, [false]: it raised). *)
Fixpoint reconnect_loop {S} (attempts : list bool) : M S unit :=
  match attempts with
  | [] => stall
  | ok :: later =>
      (log INFO "Attempting to reconnect..." ;;
       emit Reconnect ;;
       if ok then log INFO "Reconnected successfully"
       else (log ERROR "Reconnect failed: {e}" ;;
             emit (Sleep 5) ;;
             reconnect_loop later))%py
  end.

End Eff.

(** ** water_dispense_with_rfid.py *)

Module Rfid.

Import Py Eff.
Local Open Scope string_scope.
Local Open Scope py_scope.

(** The module globals. *)
Record globals : Type := mkGlobals {
  authenticated : bool;
  balance : json;
  current_card_uid : option Z
}.

(** The state at import time. *)
Definition initial : globals := mkGlobals false (JNum 0) None.

Definition set_authenticated (b : bool) : M globals unit :=
  modify (fun g => mkGlobals b (balance g) (current_card_uid g)).

Definition set_balance (v : json) : M globals unit :=
  modify (fun g => mkGlobals (authenticated g) v (current_card_uid g)).

Definition set_current_card_uid (u : option Z) : M globals unit :=
  modify (fun g => mkGlobals (authenticated g) (balance g) u).

(** The value of the global [balance] as an argument of [max] and [round],
    which take every number. *)
Definition balance_number : M globals Q :=
  g <- get ;;
  match as_number (balance g) with
  | Some q => ret q
  | None => raise TypeError
  end.

(** The global [balance] as the left operand of [balance -= dispensed_liters]:
    the right operand is a float, so an [int] or [bool] balance is converted
    to a float first, which raises [OverflowError] for an integer out of the
    range of floats. *)
Definition balance_operand : M globals Q :=
  b <- balance_number ;;
  if in_float_range b then ret b else raise OverflowError.

(** [uid, _ = reader.read()] *)
Definition reader_read (r : read_result) : M globals Z :=
  match r with
  | ReadUid uid => ret uid
  | ReadRaises => raise ReaderError
  end.

(** One turn of the metering loop as the outside world presents it: the
    sample of [time.time()] taken by the loop test and, when the test
    passes, the card read and the value of [random.randint(1, 5)]. *)
Record tick : Type := mkTick {
  clock : Q;
  card : read_result;
  pulses : Z
}.

(** A metering window: the sample of [time.time()] that sets [start_time]
    and the turns that follow. *)
Record window : Type := mkWindow {
  start_time : Q;
  ticks : list tick
}.

Definition duration : Q := 5.

Inductive flow : Type := Break | Continue.

(** The [while time.time() - start_time < duration] loop of
    [start_dispensing]; it yields [total_pulses]. *)
Fixpoint metering_loop (initial_uid : option Z) (start : Q)
    (turns : list tick) (total_pulses : Z) : M globals Z :=
  match turns with
  | [] => stall
  | t :: later =>
      if Qltb (clock t - start) duration then
        step <- try_except
                  (uid <- reader_read (card t) ;;
                   if uid_differs uid initial_uid
                   then (log WARNING "Card changed. Stopping water dispensing." ;;
                         ret Break)
                   else ret Continue)
                  (fun _ =>
                     log WARNING "Card removed. Stopping water dispensing." ;;
                     ret Break) ;;
        match step with
        | Break => ret total_pulses
        | Continue =>
            emit (Sleep (1 # 5)) ;;
            metering_loop initial_uid start later (total_pulses + pulses t)%Z
        end
      else ret total_pulses
  end.

(** [dispensed_liters] for a given [total_pulses].  The division is that of
    two integers; it is exact here, and in Python it is out of the range of
    floats only for counts beyond [10^310], which the pulse samples of
    [random.randint(1, 5)] do not add up to. *)
Definition liters_of_pulses (total_pulses : Z) : Q :=
  let dispensed_ml := (total_pulses * 2)%Z in
  py_round2 (inject_Z dispensed_ml / 1000).

(** [result_msg] before serialisation. *)
Definition result_msg (dispensed_liters bal : Q) : json :=
  JObj [("dispensed", JNum dispensed_liters);
        ("updated_balance", JNum (py_round2 bal))].

Section Device.

(** [DEVICE_ID_STR], derived from the hardware address. *)
Variable DEVICE_ID_STR : string.

Definition TOPIC_PUB_UID : string := "water_atm/" ++ DEVICE_ID_STR ++ "/uid".
Definition TOPIC_PUB_RESULT : string :=
  "water_atm/" ++ DEVICE_ID_STR ++ "/result".
Definition TOPIC_SUB_AUTH : string := "water_atm/" ++ DEVICE_ID_STR ++ "/auth".
Definition TOPIC_SUB_CONFIRM : string :=
  "water_atm/" ++ DEVICE_ID_STR ++ "/confirm".

Definition start_dispensing (c : client) (w : window) : M globals unit :=
  log INFO "Starting water dispensing..." ;;
  g <- get ;;
  let initial_uid := current_card_uid g in
  total_pulses <- metering_loop initial_uid (start_time w) (ticks w) 0 ;;
  let dispensed_liters := liters_of_pulses total_pulses in
  log INFO "Water dispensed: {dispensed_liters} L" ;;
  b <- balance_operand ;;
  set_balance (JNum (b - dispensed_liters)) ;;
  b <- balance_number ;;
  set_balance (JNum (py_max b 0)) ;;
  b <- balance_number ;;
  let msg := result_msg dispensed_liters b in
  if is_connected c
  then (emit (Publish TOPIC_PUB_RESULT msg) ;;
        log INFO "Sent result to server: {result_msg}")
  else log ERROR "MQTT disconnected — skipping result publish".

Definition on_message (c : client) (w : window) (msg : message)
  : M globals unit :=
  try_except
    (if retain msg
     then log WARNING "Retained message received. Ignoring."
     else
       payload <- decode (body msg) ;;
       log INFO "Received message on {msg.topic}: {payload}" ;;
       data <- json_loads payload ;;
       if String.eqb (topic msg) TOPIC_SUB_AUTH then
         user_exists <- data_get data "exists" (JBool false) ;;
         b <- data_get data "balance" (JNum 0) ;;
         set_balance b ;;
         if truthy user_exists then
           set_authenticated true ;;
           log INFO "User authenticated. Balance: {balance} L" ;;
           start_dispensing c w ;;
           set_authenticated false
         else log WARNING "Authentication failed. User does not exist."
       else if String.eqb (topic msg) TOPIC_SUB_CONFIRM then
         server_confirm <- data_get data "updated" (JBool false) ;;
         if truthy server_confirm
         then log INFO "Server confirmed balance update."
         else log WARNING "Server failed to confirm balance update."
       else ret tt)
    (fun _ => log ERROR "Error while processing incoming message: {e}").

(** [def on_disconnect(client, userdata, rc, properties=None)]: after
    [client] and [userdata] the signature binds one or two arguments, and a
    call with any other number raises [TypeError].  The body does not look
    at [rc].  [attempts]: the outcomes of the successive
    [client.reconnect()] calls. *)
Definition on_disconnect (args : list arg) (attempts : list bool)
  : M globals unit :=
  match args with
  | [_] | [_; _] =>
      log WARNING "Disconnected from MQTT broker" ;;
      reconnect_loop attempts
  | _ => raise TypeError
  end.

(** One turn of the [while True] loop of [main]. *)
Definition poll (c : client) (r : read_result) : M globals unit :=
  try_except
    (uid <- reader_read r ;;
     g <- get ;;
     if uid_differs uid (current_card_uid g) then
       set_current_card_uid (Some uid) ;;
       let message := JObj [("uid", JStr (str_of_int uid))] in
       log INFO "Publishing UID: {uid} to topic: {TOPIC_PUB_UID}" ;;
       if is_connected c then
         emit (Publish TOPIC_PUB_UID message) ;;
         if Z.eqb (publish_rc c) MQTT_ERR_SUCCESS
         then log INFO "UID published successfully"
         else log WARNING "Failed to publish UID. Status: {result.rc}"
       else log ERROR "MQTT disconnected — skipping publish"
     else ret tt)
    (fun _ => set_current_card_uid None) ;;
  emit (Sleep 1).

(** The polling loop of [main] over the turns it gets to run before the
    process is interrupted. *)
Fixpoint main_loop (turns : list (client * read_result)) : M globals unit :=
  match turns with
  | [] => log INFO "Disconnecting..."
  | (c, r) :: later => poll c r ;; main_loop later
  end.

End Device.

End Rfid.

(** ** mqtt_dummy_water_dispence.py *)

Module Dummy.

Import Py Eff.
Local Open Scope string_scope.
Local Open Scope py_scope.

(** The module globals. *)
Record globals : Type := mkGlobals {
  authenticated : bool;
  balance : json
}.

Definition initial : globals := mkGlobals false (JNum 0).

Definition set_authenticated (b : bool) : M globals unit :=
  modify (fun g => mkGlobals b (balance g)).

Definition set_balance (v : json) : M globals unit :=
  modify (fun g => mkGlobals (authenticated g) v).

Definition balance_number : M globals Q :=
  g <- get ;;
  match as_number (balance g) with
  | Some q => ret q
  | None => raise TypeError
  end.

(** The global [balance] as the left operand of
    [balance -= water_dispensed_liters]; see [Rfid.balance_operand]. *)
Definition balance_operand : M globals Q :=
  b <- balance_number ;;
  if in_float_range b then ret b else raise OverflowError.

(** One turn of the simulated flow sensor loop: the sample of [time.time()]
    taken by the loop test and the value of [random.randint(1, 5)]. *)
Record tick : Type := mkTick {
  clock : Q;
  pulses : Z
}.

Record window : Type := mkWindow {
  start_time : Q;
  ticks : list tick
}.

Definition duration : Q := 5.

(** The [while time.time() - start_time < duration] loop of
    [dispense_water]; it yields [total_pulses]. *)
Fixpoint flow_loop (start : Q) (turns : list tick) (total_pulses : Z)
  : M globals Z :=
  match turns with
  | [] => stall
  | t :: later =>
      if Qltb (clock t - start) duration then
        emit (Sleep (1 # 5)) ;;
        flow_loop start later (total_pulses + pulses t)%Z
      else ret total_pulses
  end.

(** [water_dispensed_liters] for a given [total_pulses]. *)
Definition liters_of_pulses (total_pulses : Z) : Q :=
  let water_dispensed_ml := (total_pulses * 2)%Z in
  py_round2 (inject_Z water_dispensed_ml / 1000).

Definition result_msg (water_dispensed_liters bal : Q) : json :=
  JObj [("dispensed", JNum water_dispensed_liters);
        ("updated_balance", JNum (py_round2 bal))].

Section Device.

Variable DEVICE_ID_STR : string.

Definition TOPIC_PUB_UID : string := "water_atm/" ++ DEVICE_ID_STR ++ "/uid".
Definition TOPIC_PUB_RESULT : string :=
  "water_atm/" ++ DEVICE_ID_STR ++ "/result".
Definition TOPIC_SUB_AUTH : string := "water_atm/" ++ DEVICE_ID_STR ++ "/auth".
Definition TOPIC_SUB_CONFIRM : string :=
  "water_atm/" ++ DEVICE_ID_STR ++ "/confirm".

Definition dispense_water (c : client) (w : window) : M globals unit :=
  log INFO "Starting water dispensing..." ;;
  total_pulses <- flow_loop (start_time w) (ticks w) 0 ;;
  let water_dispensed_liters := liters_of_pulses total_pulses in
  log INFO "Water dispensed: {water_dispensed_liters} L" ;;
  b <- balance_operand ;;
  set_balance (JNum (b - water_dispensed_liters)) ;;
  b <- balance_number ;;
  set_balance (JNum (py_max b 0)) ;;
  b <- balance_number ;;
  let message := result_msg water_dispensed_liters b in
  if is_connected c then
    emit (Publish TOPIC_PUB_RESULT message) ;;
    if Z.eqb (publish_rc c) MQTT_ERR_SUCCESS
    then log INFO "Sent result to server: {message}"
    else log WARNING "Publish failed"
  else log ERROR "MQTT disconnected — skipping publish".

Definition on_message (c : client) (w : window) (msg : message)
  : M globals unit :=
  try_except
    (if retain msg
     then log WARNING "Retained message received. Ignoring."
     else
       payload <- decode (body msg) ;;
       log INFO "Received message on {msg.topic}: {payload}" ;;
       data <- json_loads payload ;;
       if String.eqb (topic msg) TOPIC_SUB_AUTH then
         user_exists <- data_get data "exists" (JBool false) ;;
         b <- data_get data "balance" (JNum 0) ;;
         set_balance b ;;
         if truthy user_exists then
           set_authenticated true ;;
           log INFO "User authenticated. Balance: {balance} L" ;;
           dispense_water c w ;;
           set_authenticated false
         else log WARNING "Authentication failed. User does not exist."
       else if String.eqb (topic msg) TOPIC_SUB_CONFIRM then
         server_confirm <- data_get data "updated" (JBool false) ;;
         if truthy server_confirm
         then log INFO "Server confirmed balance update."
         else log WARNING "Server failed to confirm balance update."
       else ret tt)
    (fun _ => log ERROR "Error while processing incoming message: {e}").

(** [def on_disconnect(client, userdata, disconnect_flags, reason_code,
    properties=None)]: two or three arguments after [client] and
    [userdata]. *)
Definition on_disconnect (args : list arg) (attempts : list bool)
  : M globals unit :=
  match args with
  | [_; reason_code] | [_; reason_code; _] =>
      if arg_eqb reason_code MQTT_ERR_SUCCESS
      then log INFO "Disconnected cleanly from MQTT broker"
      else (log WARNING "Disconnected unexpectedly from MQTT broker" ;;
            reconnect_loop attempts)
  | _ => raise TypeError
  end.

End Device.

End Dummy.

(** ** Vocabulary of the statements *)

Module Obs.

Import Py Eff.
Local Open Scope string_scope.

(** The [(topic, payload)] pairs published along a trace, in order. *)
Fixpoint published (tr : list event) : list (string * json) :=
  match tr with
  | [] => []
  | Publish t p :: rest => (t, p) :: published rest
  | _ :: rest => published rest
  end.

(** The number of [client.reconnect()] calls along a trace. *)
Fixpoint reconnects (tr : list event) : nat :=
  match tr with
  | [] => O
  | Reconnect :: rest => S (reconnects rest)
  | _ :: rest => reconnects rest
  end.

(** The pauses taken along a trace, in order. *)
Fixpoint sleeps (tr : list event) : list Q :=
  match tr with
  | [] => []
  | Sleep s :: rest => s :: sleeps rest
  | _ :: rest => sleeps rest
  end.

Definition recv_log : event :=
  Log INFO "Received message on {msg.topic}: {payload}".

Definition err_log : event :=
  Log ERROR "Error while processing incoming message: {e}".

Definition auth_log : event :=
  Log INFO "User authenticated. Balance: {balance} L".

Definition denial_log : event :=
  Log WARNING "Authentication failed. User does not exist.".

Definition retained_log : event :=
  Log WARNING "Retained message received. Ignoring.".

(** A payload that is not the text of a JSON object. *)
Definition malformed (p : payload) : bool :=
  match p with
  | Json (JObj _) => false
  | _ => true
  end.

(** What the handler logs for a malformed payload. *)
Definition drop_trace (p : payload) : list event :=
  match p with
  | NotUtf8 => [err_log]
  | _ => [recv_log; err_log]
  end.

(** An authorization record that lacks one of its two fields. *)
Definition missing_field (d : list (string * json)) : bool :=
  negb (dict_has "exists" d && dict_has "balance" d).

(** A record completed with the defaults the handler reads with [get]. *)
Definition with_defaults (d : list (string * json)) : list (string * json) :=
  (d ++ [("exists", JBool false); ("balance", JNum 0);
         ("updated", JBool false)])%list.

(** One failed round of the reconnect loop, and the round that succeeds. *)
Definition failed_round : list event :=
  [Log INFO "Attempting to reconnect..."; Reconnect;
   Log ERROR "Reconnect failed: {e}"; Sleep 5].

Definition last_round : list event :=
  [Log INFO "Attempting to reconnect..."; Reconnect;
   Log INFO "Reconnected successfully"].

Fixpoint rounds (n : nat) : list event :=
  match n with
  | O => last_round
  | S k => (failed_round ++ rounds k)%list
  end.

End Obs.

Module RfidSpec.

Import Py Eff Rfid.
Local Open Scope string_scope.

(** The loop test [time.time() - start_time < duration] at a turn. *)
Definition in_window (start : Q) (t : tick) : bool :=
  Qltb (clock t - start) duration.

(** The card read at a turn returns the identifier the run is bound to. *)
Definition keeps_card (bound : option Z) (t : tick) : bool :=
  match card t with
  | ReadUid uid => negb (uid_differs uid bound)
  | ReadRaises => false
  end.

(** A turn that goes through: inside the window, same card. *)
Definition steady (bound : option Z) (start : Q) (t : tick) : bool :=
  in_window start t && keeps_card bound t.

Definition sum_pulses (l : list tick) : Z :=
  fold_right (fun t acc => (pulses t + acc)%Z) 0%Z l.

(** The warning logged by the turn that ends the run early. *)
Definition stop_warning (t : tick) : string :=
  match card t with
  | ReadUid _ => "Card changed. Stopping water dispensing."
  | ReadRaises => "Card removed. Stopping water dispensing."
  end.

(** The tail of the trace of [start_dispensing]. *)
Definition report (D : string) (c : client) (d bal : Q) : list event :=
  if is_connected c
  then [Publish (TOPIC_PUB_RESULT D) (result_msg d bal);
        Log INFO "Sent result to server: {result_msg}"]
  else [Log ERROR "MQTT disconnected — skipping result publish"].

(** The request published for a card. *)
Definition uid_request (D : string) (uid : Z) : string * json :=
  (TOPIC_PUB_UID D, JObj [("uid", JStr (str_of_int uid))]).

End RfidSpec.

Module DummySpec.

Import Py Eff Dummy.
Local Open Scope string_scope.

Definition in_window (start : Q) (t : tick) : bool :=
  Qltb (clock t - start) duration.

Definition sum_pulses (l : list tick) : Z :=
  fold_right (fun t acc => (pulses t + acc)%Z) 0%Z l.

(** The tail of the trace of [dispense_water]. *)
Definition report (D : string) (c : client) (d bal : Q) : list event :=
  if is_connected c
  then [Publish (TOPIC_PUB_RESULT D) (result_msg d bal);
        if Z.eqb (publish_rc c) MQTT_ERR_SUCCESS
        then Log INFO "Sent result to server: {message}"
        else Log WARNING "Publish failed"]
  else [Log ERROR "MQTT disconnected — skipping publish"].

End DummySpec.

(** ** Concrete runs *)

Module Scenario.

Import Py Eff.
Local Open Scope string_scope.

Definition device : string := "atm-0000deadbeef".

Definition online : client := mkClient true 0.
Definition offline : client := mkClient false 0.

(** A terminal that tracks card 42 and holds 5 liters. *)
Definition idle : Rfid.globals := Rfid.mkGlobals false (JNum 5) (Some 42%Z).

(** The same terminal as an authorization with balance 10 leaves it when the
    metering starts. *)
Definition authorised : Rfid.globals :=
  Rfid.mkGlobals true (JNum 10) (Some 42%Z).

(** Three turns with the card in place, then the window is over. *)
Definition full_run : Rfid.window :=
  Rfid.mkWindow 100
    [Rfid.mkTick 100 (ReadUid 42) 3;
     Rfid.mkTick (1002 # 10) (ReadUid 42) 5;
     Rfid.mkTick (1004 # 10) (ReadUid 42) 2;
     Rfid.mkTick 105 (ReadUid 42) 4].





Definition auth_message (d : list (string * json)) : message :=
  mkMessage false (Rfid.TOPIC_SUB_AUTH device) (Json (JObj d)).

Definition grant : list (string * json) :=
  [("exists", JBool true); ("balance", JNum 10)].

Definition bare_denial : list (string * json) := [("exists", JBool false)].

Definition grant_without_balance : list (string * json) :=
  [("exists", JBool true)].

(** The simulated terminal and a window of two turns. *)
Definition dummy_idle : Dummy.globals := Dummy.mkGlobals false (JNum 5).


Definition dummy_run : Dummy.window :=
  Dummy.mkWindow 100
    [Dummy.mkTick 100 3; Dummy.mkTick (1002 # 10) 5; Dummy.mkTick 105 1].

End Scenario.

From Stdlib Require HexString.
From Stdlib Require Import Ascii.

(** ** Vocabulary of the further properties *)

Module Cases.

Import Py Eff Obs.

(** The ways a call of [start_dispensing] can go from globals [g]: its
    loop is still running when the observations end, the debit raises on a
    balance that is not a number or on an integer too large for a float, or
    it returns after debiting what [p] pulses amount to. *)
Inductive dispensing_outcome (D : string) (c : client) (g : Rfid.globals)
  : run Rfid.globals unit -> Prop :=
| DispensingStalled tl :
    published tl = [] ->
    dispensing_outcome D c g (mkRun Running g tl)
| DispensingTypeError tl :
    as_number (Rfid.balance g) = None ->
    published tl = [] ->
    dispensing_outcome D c g (mkRun (Raised TypeError) g tl)
| DispensingOverflow b tl :
    as_number (Rfid.balance g) = Some b ->
    in_float_range b = false ->
    published tl = [] ->
    dispensing_outcome D c g (mkRun (Raised OverflowError) g tl)
| DispensingDone p b tl :
    as_number (Rfid.balance g) = Some b ->
    in_float_range b = true ->
    published tl = [] ->
    dispensing_outcome D c g
      (mkRun (Returned tt)
         (Rfid.mkGlobals (Rfid.authenticated g)
            (JNum (py_max (b - Rfid.liters_of_pulses p) 0))
            (Rfid.current_card_uid g))
         (tl ++ RfidSpec.report D c (Rfid.liters_of_pulses p)
                  (py_max (b - Rfid.liters_of_pulses p) 0))).

End Cases.

Module Pace.

Import Py Eff.

(** The clock samples of a run are paced when each is no earlier than [lo]
    and each following sample is at least the pause of a fifth of a second
    later than the one before: what [time.sleep(0.2)] at the end of a turn
    gives with a clock that does not run backwards. *)
Fixpoint paced (lo : Q) (turns : list Rfid.tick) : bool :=
  match turns with
  | [] => true
  | t :: later =>
      Qle_bool lo (Rfid.clock t) && paced (Rfid.clock t + (1 # 5)) later
  end.

(** The pulse samples [random.randint(1, 5)] can give. *)
Definition pulses_in_range (turns : list Rfid.tick) : bool :=
  forallb (fun t => (1 <=? Rfid.pulses t)%Z && (Rfid.pulses t <=? 5)%Z) turns.

End Pace.

Module LongRun.

Import Py Eff.

(** Twenty-six turns a fifth of a second apart with card 42 in place. *)
Definition turns : list Rfid.tick :=
  map (fun k => Rfid.mkTick (inject_Z (Z.of_nat k) * (1 # 5)) (ReadUid 42) 3)
      (seq 0 26).

Definition window : Rfid.window := Rfid.mkWindow 0 turns.

End LongRun.

(** ** The polling loop of [main] in [mqtt_dummy_water_dispence.py] *)

Module DummyMain.

Import Py Eff.
Local Open Scope string_scope.
Local Open Scope py_scope.

(** [uuid.uuid4().hex[:8]], given the hexadecimal text of the fresh UUID. *)
Definition simulate_nfc_uid (uuid_hex : string) : string :=
  substring 0 8 uuid_hex.

Section Device.

Variable DEVICE_ID_STR : string.

(** One turn of the [while True] loop of [main]. *)
Definition turn (c : client) (uuid_hex : string) : M Dummy.globals unit :=
  g <- get ;;
  (if negb (Dummy.authenticated g) then
     let uid := simulate_nfc_uid uuid_hex in
     let message := JObj [("uid", JStr uid)] in
     log INFO "Publishing UID: {uid} to topic: {TOPIC_PUB_UID}" ;;
     if is_connected c then
       emit (Publish (Dummy.TOPIC_PUB_UID DEVICE_ID_STR) message) ;;
       if Z.eqb (publish_rc c) MQTT_ERR_SUCCESS
       then log INFO "UID published successfully"
       else log WARNING "Failed to publish UID. Status: {result.rc}"
     else log ERROR "MQTT disconnected — skipping publish"
   else ret tt) ;;
  emit (Sleep 10).

(** The loop over the turns it gets to run before the process is
    interrupted; each turn comes with the client as it is then and the
    UUID drawn then. *)
Fixpoint main_loop (turns : list (client * string)) : M Dummy.globals unit :=
  match turns with
  | [] => log INFO "Disconnecting..."
  | (c, uuid_hex) :: later => turn c uuid_hex ;; main_loop later
  end.

End Device.

(** The request published for a simulated card. *)
Definition uid_request (D : string) (uuid_hex : string) : string * json :=
  (Dummy.TOPIC_PUB_UID D, JObj [("uid", JStr (simulate_nfc_uid uuid_hex))]).

(** The requests the turns with a connected client give rise to. *)
Fixpoint requests (D : string) (turns : list (client * string))
  : list (string * json) :=
  match turns with
  | [] => []
  | (c, uuid_hex) :: later =>
      if is_connected c then uid_request D uuid_hex :: requests D later
      else requests D later
  end.

End DummyMain.

(** ** [on_connect], the same in both programs *)

Module Connect.

Import Py Eff.
Local Open Scope string_scope.

(** What the callback does: logger calls and the subscriptions that
    [client.subscribe(topic, qos=0)] has made. *)
Inductive action : Type :=
| Say (lvl : level) (fmt : string)
| Subscribe (topic : string) (qos : Z).

Section Device.

Variable DEVICE_ID_STR : string.

(** [auth_ok] and [confirm_ok] tell whether the first and the second
    [client.subscribe] call return ([true]) or raise ([false]); the second
    call is only made when the first has returned. *)
Definition on_connect (reason_code : Z) (auth_ok confirm_ok : bool)
  : list action :=
  if Z.eqb reason_code 0 then
    Say INFO "Connected to MQTT Broker"
    :: (if auth_ok then
          Subscribe (Rfid.TOPIC_SUB_AUTH DEVICE_ID_STR) 0
          :: (if confirm_ok then
                [Subscribe (Rfid.TOPIC_SUB_CONFIRM DEVICE_ID_STR) 0;
                 Say INFO
                   "Subscribed to topics: {TOPIC_SUB_AUTH}, {TOPIC_SUB_CONFIRM}"]
              else [Say ERROR "Subscription failed: {e}"])
        else [Say ERROR "Subscription failed: {e}"])
  else [Say ERROR "Failed to connect, reason code {reason_code}"].

End Device.

(** The topics subscribed along a list of actions. *)
Fixpoint subscribed (l : list action) : list string :=
  match l with
  | [] => []
  | Subscribe t _ :: rest => t :: subscribed rest
  | Say _ _ :: rest => subscribed rest
  end.

End Connect.

(** ** The device identifier: [DEVICE_ID_STR = f"atm-{DEVICE_ID:012x}"] *)

Module DeviceId.

Local Open Scope string_scope.

(** [format(n, "x")]: the lower-case hexadecimal digits of [n]. *)
Definition hex (n : N) : string :=
  match n with
  | N0 => "0"
  | Npos p => HexString.Raw.of_pos p ""
  end.

Fixpoint zeros (k : nat) : string :=
  match k with
  | O => ""
  | S k' => String "0" (zeros k')
  end.

(** The [012] of the format: zero padding on the left up to twelve
    characters, and no truncation. *)
Definition pad12 (s : string) : string :=
  zeros (12 - String.length s) ++ s.

(** [DEVICE_ID_STR] for the value [uuid.getnode()] returns. *)
Definition DEVICE_ID_STR (node : N) : string := "atm-" ++ pad12 (hex node).

End DeviceId.

(** ** read_mac_addr.py *)

Module Mac.

Local Open Scope string_scope.

(** The address file of a network interface holds ASCII text.  [isspace],
    [strip] and [lower] are modelled on the ASCII range, where they are
    exact; outside it Python also strips U+0085 and U+00A0 and lowers the
    accented capitals, which the definitions below do not.  Statements that
    depend on the difference are made for ASCII content ([is_ascii]).  The
    [logger.debug] calls are left out. *)

Definition is_ascii (ch : ascii) : bool := (nat_of_ascii ch <? 128)%nat.

(** [ch.isspace()] on an ASCII character. *)
Definition is_space (ch : ascii) : bool :=
  let n := nat_of_ascii ch in
  ((9 <=? n) && (n <=? 13) || (28 <=? n) && (n <=? 32))%nat.

Fixpoint lstrip (s : string) : string :=
  match s with
  | EmptyString => EmptyString
  | String ch rest => if is_space ch then lstrip rest else s
  end.

Fixpoint rstrip (s : string) : string :=
  match s with
  | EmptyString => EmptyString
  | String ch rest =>
      match rstrip rest with
      | EmptyString => if is_space ch then EmptyString
                       else String ch EmptyString
      | kept => String ch kept
      end
  end.

(** [s.strip()] *)
Definition strip (s : string) : string := lstrip (rstrip s).

(** [get_mac(interface)]: [file] is the content of
    [/sys/class/net/{interface}/address], or [None] when opening it raises
    [FileNotFoundError]. *)
Definition get_mac (file : option string) : option string :=
  match file with
  | Some content => Some (strip content)
  | None => None
  end.

(** [s.replace(":", "")] *)
Fixpoint remove_colons (s : string) : string :=
  match s with
  | EmptyString => EmptyString
  | String ch rest =>
      if Ascii.eqb ch ":" then remove_colons rest
      else String ch (remove_colons rest)
  end.

Definition lower_char (ch : ascii) : ascii :=
  let n := nat_of_ascii ch in
  if ((65 <=? n) && (n <=? 90))%nat then ascii_of_nat (n + 32) else ch.

(** [s.lower()] on ASCII text. *)
Fixpoint lower (s : string) : string :=
  match s with
  | EmptyString => EmptyString
  | String ch rest => String (lower_char ch) (lower rest)
  end.

(** [format_mac_for_id(mac)]; [None] and the empty string are the false
    values of [mac]. *)
Definition format_mac_for_id (mac : option string) : string :=
  match mac with
  | Some (String _ _ as m) => lower (remove_colons m)
  | _ => "unknown"
  end.

(** [s[-6:]] *)
Definition last6 (s : string) : string :=
  substring (String.length s - 6) 6 s.

(** What [main] logs when it finds an address. *)
Record identity : Type := mkIdentity {
  mqtt_client_id : string;
  mqtt_topic : string
}.

(** [main()]: [None] when it stops at "Could not find MAC address.". *)
Definition main (file : option string) : option identity :=
  match get_mac file with
  | Some (String _ _ as mac) =>
      let device_id := format_mac_for_id (Some mac) in
      Some (mkIdentity ("atm-" ++ last6 device_id) ("water_atm/" ++ device_id))
  | _ => None
  end.

(** A hexadecimal digit, and one that [lower] leaves alone. *)
Definition is_hex (ch : ascii) : bool :=
  let n := nat_of_ascii ch in
  ((48 <=? n) && (n <=? 57) || (65 <=? n) && (n <=? 70)
   || (97 <=? n) && (n <=? 102))%nat.

Definition is_lower_hex (ch : ascii) : bool :=
  let n := nat_of_ascii ch in
  ((48 <=? n) && (n <=? 57) || (97 <=? n) && (n <=? 102))%nat.

Definition is_upper (ch : ascii) : bool :=
  let n := nat_of_ascii ch in ((65 <=? n) && (n <=? 90))%nat.

Fixpoint all_chars (f : ascii -> bool) (s : string) : bool :=
  match s with
  | EmptyString => true
  | String ch rest => f ch && all_chars f rest
  end.

(** [k] groups of two hexadecimal digits separated by colons: the text of a
    hardware address when [k] is 6. *)
Fixpoint octets (k : nat) (s : string) : bool :=
  match k, s with
  | S O, String a (String b EmptyString) => is_hex a && is_hex b
  | S (S _ as k'), String a (String b (String c rest)) =>
      is_hex a && is_hex b && Ascii.eqb c ":" && octets k' rest
  | _, _ => false
  end.

Definition is_mac (s : string) : bool := octets 6 s.

End Mac.

(** * Properties *)

Import Py Eff Obs.

Local Open Scope string_scope.
Local Open Scope list_scope.
Local Open Scope Q_scope.

(** ** Numbers *)

Lemma Qltb_lt a b : Qltb a b = true <-> a < b.
Proof.
  unfold Qltb. rewrite negb_true_iff.
  split; intro H.
  - apply Qnot_le_lt. intro L. apply Qle_bool_iff in L. congruence.
  - destruct (Qle_bool b a) eqn:E; [|reflexivity].
    apply Qle_bool_iff in E. exfalso. exact (Qlt_not_le _ _ H E).
Qed.

Lemma Qltb_ge a b : Qltb a b = false <-> b <= a.
Proof.
  unfold Qltb. rewrite negb_false_iff. apply Qle_bool_iff.
Qed.

(** Python's [max] of two numbers is their maximum. *)
Lemma py_max_is_Qmax a b : py_max a b == Qmax a b.
Proof.
  unfold py_max, Qgtb.
  destruct (Qltb a b) eqn:E.
  - apply Qltb_lt in E. symmetry. apply Q.max_r. apply Qlt_le_weak; exact E.
  - apply Qltb_ge in E. symmetry. apply Q.max_l. exact E.
Qed.

Lemma py_max_zero_nonneg a : 0 <= py_max a 0.
Proof.
  rewrite py_max_is_Qmax. apply Q.le_max_r.
Qed.

Lemma round_half_even_comp x y :
  x == y -> round_half_even x = round_half_even y.
Proof.
  intro H. unfold round_half_even.
  rewrite (Qfloor_comp _ _ H).
  assert (E : (x - inject_Z (Qfloor y) ?= 1 # 2)
              = (y - inject_Z (Qfloor y) ?= 1 # 2)).
  { apply Qcompare_comp; [rewrite H; reflexivity | reflexivity]. }
  rewrite E. reflexivity.
Qed.

Lemma round_half_even_between x :
  (Qfloor x <= round_half_even x <= Qfloor x + 1)%Z.
Proof.
  unfold round_half_even.
  destruct (x - inject_Z (Qfloor x) ?= 1 # 2);
    [destruct (Z.even (Qfloor x))| |]; lia.
Qed.

Lemma round_half_even_nonneg x : 0 <= x -> (0 <= round_half_even x)%Z.
Proof.
  intro H.
  assert (F : (0 <= Qfloor x)%Z).
  { change 0%Z with (Qfloor 0). apply Qfloor_resp_le. exact H. }
  pose proof (round_half_even_between x). lia.
Qed.

Lemma py_round2_nonneg x : 0 <= x -> 0 <= py_round2 x.
Proof.
  intro H. unfold py_round2.
  apply Qle_shift_div_l; [reflexivity|].
  rewrite Qmult_0_l.
  change 0 with (inject_Z 0). rewrite <- Zle_Qle.
  apply round_half_even_nonneg.
  apply Qmult_le_0_compat; [exact H | discriminate].
Qed.

(** A number of fifths is never half way between two integers. *)
Lemma round_fifths (p : Z) : round_half_even (p # 5) = ((p + 2) / 5)%Z.
Proof.
  unfold round_half_even.
  assert (F : Qfloor (p # 5) = (p / 5)%Z) by reflexivity.
  rewrite F.
  pose proof (Z.div_mod p 5 ltac:(lia)) as DM.
  pose proof (Z.mod_pos_bound p 5 ltac:(lia)) as MB.
  set (q := (p / 5)%Z) in *. set (r := (p mod 5)%Z) in *.
  assert (C : ((p # 5) - inject_Z q ?= 1 # 2) = (2 * r ?= 5)%Z).
  { unfold Qcompare, Qminus, Qplus, Qopp, inject_Z. cbn [Qnum Qden].
    f_equal. change (Z.pos (5 * 1)) with 5%Z. lia. }
  rewrite C.
  assert (E : (p + 2 = 5 * q + (r + 2))%Z) by lia.
  destruct (2 * r ?= 5)%Z eqn:K.
  - apply Z.compare_eq in K. lia.
  - rewrite Z.compare_lt_iff in K.
    apply (Z.div_unique (p + 2) 5 q (r + 2)); lia.
  - rewrite Z.compare_gt_iff in K.
    apply (Z.div_unique (p + 2) 5 (q + 1) (r - 3)); lia.
Qed.

(** Two milliliters a pulse, in hundredths of a liter: a fifth of the pulse
    count, to the nearest integer. *)
Lemma liters_closed_form (p : Z) :
  py_round2 (inject_Z (p * 2) / 1000) == inject_Z ((p + 2) / 5) / 100.
Proof.
  unfold py_round2.
  rewrite (round_half_even_comp _ (p # 5)).
  - rewrite round_fifths. reflexivity.
  - unfold Qeq, Qdiv, Qmult, Qinv, inject_Z. cbn. lia.
Qed.

Lemma liters_nonneg (p : Z) :
  (0 <= p)%Z -> 0 <= py_round2 (inject_Z (p * 2) / 1000).
Proof.
  intro H. apply py_round2_nonneg.
  apply Qle_shift_div_l; [reflexivity|].
  rewrite Qmult_0_l. change 0 with (inject_Z 0). rewrite <- Zle_Qle. lia.
Qed.

(** ** Dictionaries *)

Lemma dict_get_app key d e default :
  dict_get key (d ++ e) default = dict_get key d (dict_get key e default).
Proof.
  induction d as [|[k v] d IH]; cbn; [reflexivity|].
  destruct (String.eqb k key); [reflexivity | exact IH].
Qed.

Lemma dict_get_with_defaults_exists d :
  dict_get "exists" (with_defaults d) (JBool false)
  = dict_get "exists" d (JBool false).
Proof. unfold with_defaults. rewrite dict_get_app. reflexivity. Qed.

Lemma dict_get_with_defaults_balance d :
  dict_get "balance" (with_defaults d) (JNum 0)
  = dict_get "balance" d (JNum 0).
Proof. unfold with_defaults. rewrite dict_get_app. reflexivity. Qed.

Lemma dict_get_with_defaults_updated d :
  dict_get "updated" (with_defaults d) (JBool false)
  = dict_get "updated" d (JBool false).
Proof. unfold with_defaults. rewrite dict_get_app. reflexivity. Qed.

(** ** Traces *)

Lemma published_app tr tr' :
  published (tr ++ tr') = published tr ++ published tr'.
Proof.
  induction tr as [|e tr IH]; [reflexivity|].
  destruct e; cbn; rewrite IH; reflexivity.
Qed.

Lemma published_sleeps n s : published (repeat (Sleep s) n) = [].
Proof. induction n; cbn; auto. Qed.

Lemma sleeps_app tr tr' : sleeps (tr ++ tr') = sleeps tr ++ sleeps tr'.
Proof.
  induction tr as [|e tr IH]; [reflexivity|].
  destruct e; cbn; rewrite IH; reflexivity.
Qed.

Lemma reconnects_app tr tr' :
  reconnects (tr ++ tr') = (reconnects tr + reconnects tr')%nat.
Proof.
  induction tr as [|e tr IH]; [reflexivity|].
  destruct e; cbn; rewrite IH; reflexivity.
Qed.

(** Numbers stay folded while the monadic code is run symbolically. *)
Arguments Py.py_round2 : simpl never.
Arguments Py.py_max : simpl never.
Arguments Py.Qltb : simpl never.
Arguments Py.in_float_range : simpl never.
Arguments Rfid.liters_of_pulses : simpl never.
Arguments Dummy.liters_of_pulses : simpl never.
Arguments Qminus : simpl never.
Arguments Rfid.start_dispensing : simpl never.
Arguments Dummy.dispense_water : simpl never.
Arguments Obs.with_defaults : simpl never.
Arguments Rfid.TOPIC_SUB_AUTH : simpl never.
Arguments Rfid.TOPIC_SUB_CONFIRM : simpl never.
Arguments Rfid.TOPIC_PUB_UID : simpl never.
Arguments Rfid.TOPIC_PUB_RESULT : simpl never.
Arguments Dummy.TOPIC_SUB_AUTH : simpl never.
Arguments Dummy.TOPIC_SUB_CONFIRM : simpl never.
Arguments Dummy.TOPIC_PUB_RESULT : simpl never.

Ltac step_monad :=
  unfold bind, try_except, ret, raise, stall, log, emit, get, modify; cbn.

(** ** The reconnect loop *)

Section Reconnect.

Context {S : Type}.

Lemma reconnect_loop_turn (ok : bool) (later : list bool) (g : S) :
  reconnect_loop (ok :: later) g =
  if ok then mkRun (Returned tt) g last_round
  else let r := reconnect_loop later g in
       mkRun (result r) (final r) (failed_round ++ trace r).
Proof.
  cbn [reconnect_loop]. step_monad.
  destruct ok; cbn; [reflexivity|].
  destruct (reconnect_loop later g) as [[a|e|] g1 tr1]; reflexivity.
Qed.

(** After [n] failures the first success ends the loop: [n + 1] attempts,
    five seconds of sleep after each failure. *)
Lemma reconnect_loop_retries (n : nat) (later : list bool) (g : S) :
  reconnect_loop (repeat false n ++ true :: later) g =
  mkRun (Returned tt) g (rounds n).
Proof.
  induction n as [|n IH]; cbn [repeat app].
  - rewrite reconnect_loop_turn. reflexivity.
  - rewrite reconnect_loop_turn, IH. reflexivity.
Qed.

(** No number of failures makes the loop give up. *)
Lemma reconnect_loop_persists (n : nat) (g : S) :
  result (reconnect_loop (repeat false n) g) = Running.
Proof.
  induction n as [|n IH]; cbn [repeat].
  - reflexivity.
  - rewrite reconnect_loop_turn. exact IH.
Qed.

End Reconnect.

Lemma rounds_reconnects n : reconnects (rounds n) = Datatypes.S n.
Proof. induction n as [|n IH]; cbn; [reflexivity | now rewrite IH]. Qed.

Lemma rounds_sleeps n : sleeps (rounds n) = repeat 5 n.
Proof. induction n as [|n IH]; cbn; [reflexivity | now rewrite IH]. Qed.

(** ** The metering loop of [start_dispensing] *)

Section Metering.

Import Rfid RfidSpec.

Lemma metering_loop_turn bound start t later total g :
  metering_loop bound start (t :: later) total g =
  if in_window start t then
    if keeps_card bound t then
      let r := metering_loop bound start later (total + pulses t) g in
      mkRun (result r) (final r) (Sleep (1 # 5) :: trace r)
    else mkRun (Returned total) g [Log WARNING (stop_warning t)]
  else mkRun (Returned total) g [].
Proof.
  cbn [metering_loop]. unfold in_window, keeps_card, stop_warning.
  destruct (Qltb (clock t - start) duration); [|reflexivity].
  destruct (card t) as [uid|]; [|reflexivity].
  unfold reader_read. step_monad.
  destruct (uid_differs uid bound); cbn; [reflexivity|].
  destruct (metering_loop bound start later (total + pulses t) g)
    as [[a|e|] g1 tr1]; reflexivity.
Qed.

(** The loop does not touch the globals. *)
Lemma metering_loop_final bound start turns : forall total g,
  final (metering_loop bound start turns total g) = g.
Proof.
  induction turns as [|t later IH]; intros total g.
  - reflexivity.
  - rewrite metering_loop_turn.
    destruct (in_window start t), (keeps_card bound t); cbn; auto.
Qed.

(** No exception leaves the loop. *)
Lemma metering_loop_never_raises bound start turns : forall total g e,
  result (metering_loop bound start turns total g) <> Raised e.
Proof.
  induction turns as [|t later IH]; intros total g e.
  - discriminate.
  - rewrite metering_loop_turn.
    destruct (in_window start t), (keeps_card bound t); cbn;
      try discriminate; apply IH.
Qed.

Lemma metering_loop_steady bound start pre : forall rest total g,
  forallb (steady bound start) pre = true ->
  metering_loop bound start (pre ++ rest) total g =
  let r := metering_loop bound start rest (total + sum_pulses pre) g in
  mkRun (result r) (final r)
        (repeat (Sleep (1 # 5)) (List.length pre) ++ trace r).
Proof.
  induction pre as [|t pre IH]; intros rest total g H.
  - cbn. rewrite Z.add_0_r.
    destruct (metering_loop bound start rest total g); reflexivity.
  - cbn [forallb] in H. apply andb_true_iff in H. destruct H as [Ht Hpre].
    unfold steady in Ht. apply andb_true_iff in Ht. destruct Ht as [Hw Hc].
    cbn [app]. rewrite metering_loop_turn, Hw, Hc.
    rewrite (IH rest (total + pulses t)%Z g Hpre). cbn.
    rewrite Z.add_assoc. reflexivity.
Qed.

(** The run is cut short by the first turn that reads another card or
    none; the pulses of that turn are not counted. *)
Lemma metering_loop_cancelled bound start pre t post total g :
  forallb (steady bound start) pre = true ->
  in_window start t = true ->
  keeps_card bound t = false ->
  metering_loop bound start (pre ++ t :: post) total g =
  mkRun (Returned (total + sum_pulses pre)%Z) g
        (repeat (Sleep (1 # 5)) (List.length pre)
         ++ [Log WARNING (stop_warning t)]).
Proof.
  intros Hpre Hw Hc.
  rewrite (metering_loop_steady _ _ _ _ _ _ Hpre).
  rewrite metering_loop_turn, Hw, Hc. reflexivity.
Qed.

(** Otherwise it lasts until the first clock sample outside the window. *)
Lemma metering_loop_elapsed bound start pre t post total g :
  forallb (steady bound start) pre = true ->
  in_window start t = false ->
  metering_loop bound start (pre ++ t :: post) total g =
  mkRun (Returned (total + sum_pulses pre)%Z) g
        (repeat (Sleep (1 # 5)) (List.length pre)).
Proof.
  intros Hpre Hw.
  rewrite (metering_loop_steady _ _ _ _ _ _ Hpre).
  rewrite metering_loop_turn, Hw. cbn. rewrite app_nil_r. reflexivity.
Qed.

(** A run that ends has one of these two shapes. *)
Lemma metering_loop_returned bound start turns : forall total g p,
  result (metering_loop bound start turns total g) = Returned p ->
  exists pre t post,
    turns = pre ++ t :: post /\
    forallb (steady bound start) pre = true /\
    steady bound start t = false /\
    p = (total + sum_pulses pre)%Z.
Proof.
  induction turns as [|t later IH]; intros total g p H.
  - discriminate.
  - rewrite metering_loop_turn in H.
    destruct (in_window start t) eqn:Hw;
      [destruct (keeps_card bound t) eqn:Hc|].
    + cbn in H. apply IH in H.
      destruct H as (pre & t' & post & -> & Hpre & Ht & ->).
      exists (t :: pre), t', post. cbn. unfold steady at 1.
      rewrite Hw, Hc. cbn.
      repeat split; auto. unfold sum_pulses. cbn. lia.
    + cbn in H. injection H as <-. exists [], t, later. cbn.
      unfold steady. rewrite Hw, Hc. repeat split; auto. lia.
    + cbn in H. injection H as <-. exists [], t, later. cbn.
      unfold steady. rewrite Hw. repeat split; auto. lia.
Qed.

(** With the pulse samples [random.randint(1, 5)] can give, the total is
    not negative. *)
Lemma sum_pulses_nonneg (l : list tick) :
  Forall (fun t => (1 <= pulses t <= 5)%Z) l -> (0 <= sum_pulses l)%Z.
Proof.
  induction 1 as [|t l Ht _ IH]; cbn; [lia|].
  unfold sum_pulses in IH. lia.
Qed.

Lemma metering_loop_total_nonneg bound start turns g p :
  Forall (fun t => (1 <= pulses t <= 5)%Z) turns ->
  result (metering_loop bound start turns 0 g) = Returned p ->
  (0 <= p)%Z.
Proof.
  intros Hall H. apply metering_loop_returned in H.
  destruct H as (pre & t & post & -> & _ & _ & ->).
  apply Forall_app in Hall. destruct Hall as [Hpre _].
  pose proof (sum_pulses_nonneg pre Hpre). lia.
Qed.

(** [start_dispensing] once the loop has ended, for a balance the debit can
    be computed on. *)
Lemma start_dispensing_returned D c w g p b :
  result (metering_loop (current_card_uid g) (start_time w) (ticks w) 0 g)
    = Returned p ->
  as_number (balance g) = Some b ->
  in_float_range b = true ->
  let d := liters_of_pulses p in
  start_dispensing D c w g =
  mkRun (Returned tt)
        (mkGlobals (authenticated g) (JNum (py_max (b - d) 0))
                   (current_card_uid g))
        (Log INFO "Starting water dispensing..."
         :: trace (metering_loop (current_card_uid g) (start_time w)
                                 (ticks w) 0 g)
         ++ Log INFO "Water dispensed: {dispensed_liters} L"
         :: report D c d (py_max (b - d) 0)).
Proof.
  intros Hp Hb Hr d.
  pose proof (metering_loop_final (current_card_uid g) (start_time w)
                (ticks w) 0 g) as Hf.
  unfold start_dispensing, balance_operand, balance_number, set_balance,
    report.
  step_monad.
  destruct (metering_loop (current_card_uid g) (start_time w) (ticks w) 0 g)
    as [res fin tl].
  cbn in Hp, Hf. subst res fin. cbn. rewrite Hb. cbn. rewrite Hr. cbn.
  destruct (is_connected c); cbn; rewrite <- ?app_assoc; reflexivity.
Qed.

(** [start_dispensing] once the loop has ended, for a balance that is not a
    number: the debit raises and the globals are as they were. *)
Lemma start_dispensing_type_error D c w g p :
  result (metering_loop (current_card_uid g) (start_time w) (ticks w) 0 g)
    = Returned p ->
  as_number (balance g) = None ->
  start_dispensing D c w g =
  mkRun (Raised TypeError) g
        (Log INFO "Starting water dispensing..."
         :: trace (metering_loop (current_card_uid g) (start_time w)
                                 (ticks w) 0 g)
         ++ [Log INFO "Water dispensed: {dispensed_liters} L"]).
Proof.
  intros Hp Hb.
  pose proof (metering_loop_final (current_card_uid g) (start_time w)
                (ticks w) 0 g) as Hf.
  unfold start_dispensing, balance_operand, balance_number, set_balance.
  step_monad.
  destruct (metering_loop (current_card_uid g) (start_time w) (ticks w) 0 g)
    as [res fin tl].
  cbn in Hp, Hf. subst res fin. cbn. rewrite Hb. cbn.
  rewrite <- ?app_assoc. reflexivity.
Qed.

(** [start_dispensing] once the loop has ended, for an integer balance that
    no float can hold: the conversion at the debit raises and the globals
    are as they were. *)
Lemma start_dispensing_overflow D c w g p b :
  result (metering_loop (current_card_uid g) (start_time w) (ticks w) 0 g)
    = Returned p ->
  as_number (balance g) = Some b ->
  in_float_range b = false ->
  start_dispensing D c w g =
  mkRun (Raised OverflowError) g
        (Log INFO "Starting water dispensing..."
         :: trace (metering_loop (current_card_uid g) (start_time w)
                                 (ticks w) 0 g)
         ++ [Log INFO "Water dispensed: {dispensed_liters} L"]).
Proof.
  intros Hp Hb Hr.
  pose proof (metering_loop_final (current_card_uid g) (start_time w)
                (ticks w) 0 g) as Hf.
  unfold start_dispensing, balance_operand, balance_number, set_balance.
  step_monad.
  destruct (metering_loop (current_card_uid g) (start_time w) (ticks w) 0 g)
    as [res fin tl].
  cbn in Hp, Hf. subst res fin. cbn. rewrite Hb. cbn. rewrite Hr. cbn.
  rewrite <- ?app_assoc. reflexivity.
Qed.

End Metering.

(** ** The flow loop of [dispense_water] *)

Section Flow.

Import Dummy DummySpec.

Lemma flow_loop_turn start t later total g :
  flow_loop start (t :: later) total g =
  if in_window start t then
    let r := flow_loop start later (total + pulses t) g in
    mkRun (result r) (final r) (Sleep (1 # 5) :: trace r)
  else mkRun (Returned total) g [].
Proof.
  cbn [flow_loop]. unfold in_window.
  destruct (Qltb (clock t - start) duration); [|reflexivity].
  step_monad.
  destruct (flow_loop start later (total + pulses t) g) as [[a|e|] g1 tr1];
    reflexivity.
Qed.

Lemma flow_loop_final start turns : forall total g,
  final (flow_loop start turns total g) = g.
Proof.
  induction turns as [|t later IH]; intros total g.
  - reflexivity.
  - rewrite flow_loop_turn. destruct (in_window start t); cbn; auto.
Qed.

Lemma flow_loop_published start turns : forall total g,
  published (trace (flow_loop start turns total g)) = [].
Proof.
  induction turns as [|t later IH]; intros total g.
  - reflexivity.
  - rewrite flow_loop_turn. destruct (in_window start t); cbn; auto.
Qed.

(** The loop lasts until the first clock sample outside the window. *)
Lemma flow_loop_elapsed start pre : forall t post total g,
  forallb (in_window start) pre = true ->
  in_window start t = false ->
  flow_loop start (pre ++ t :: post) total g =
  mkRun (Returned (total + sum_pulses pre)%Z) g
        (repeat (Sleep (1 # 5)) (List.length pre)).
Proof.
  induction pre as [|x pre IH]; intros t post total g Hpre Hw.
  - cbn [app]. rewrite flow_loop_turn, Hw. cbn. now rewrite Z.add_0_r.
  - cbn [forallb] in Hpre. apply andb_true_iff in Hpre.
    destruct Hpre as [Hx Hpre].
    cbn [app]. rewrite flow_loop_turn, Hx.
    rewrite (IH t post (total + pulses x)%Z g Hpre Hw). cbn.
    rewrite Z.add_assoc. reflexivity.
Qed.


(** [dispense_water] once the loop has ended, when the debit raises: on a
    balance that is not a number, and on an integer too large for a
    float. *)
Lemma dispense_water_type_error D c w g p :
  result (flow_loop (start_time w) (ticks w) 0 g) = Returned p ->
  as_number (balance g) = None ->
  dispense_water D c w g =
  mkRun (Raised TypeError) g
        (Log INFO "Starting water dispensing..."
         :: trace (flow_loop (start_time w) (ticks w) 0 g)
         ++ [Log INFO "Water dispensed: {water_dispensed_liters} L"]).
Proof.
  intros Hp Hb.
  pose proof (flow_loop_final (start_time w) (ticks w) 0 g) as Hf.
  unfold dispense_water, balance_operand, balance_number, set_balance.
  step_monad.
  destruct (flow_loop (start_time w) (ticks w) 0 g) as [res fin tl].
  cbn in Hp, Hf. subst res fin. cbn. rewrite Hb. cbn.
  rewrite <- ?app_assoc. reflexivity.
Qed.


End Flow.

(** The loop of [start_dispensing] publishes nothing. *)
Lemma metering_loop_published bound start turns : forall total g,
  published (trace (Rfid.metering_loop bound start turns total g)) = [].
Proof.
  induction turns as [|t later IH]; intros total g.
  - reflexivity.
  - rewrite metering_loop_turn.
    destruct (RfidSpec.in_window start t), (RfidSpec.keeps_card bound t);
      cbn; auto.
Qed.


(** The loops neither read nor write the globals. *)
Lemma metering_loop_ignores_globals bound start turns : forall total g g',
  result (Rfid.metering_loop bound start turns total g)
  = result (Rfid.metering_loop bound start turns total g') /\
  trace (Rfid.metering_loop bound start turns total g)
  = trace (Rfid.metering_loop bound start turns total g').
Proof.
  induction turns as [|t later IH]; intros total g g'.
  - split; reflexivity.
  - rewrite !metering_loop_turn.
    destruct (RfidSpec.in_window start t), (RfidSpec.keeps_card bound t);
      cbn; try (split; reflexivity).
    destruct (IH (total + Rfid.pulses t)%Z g g') as [-> ->].
    split; reflexivity.
Qed.

Lemma flow_loop_ignores_globals start turns : forall total g g',
  result (Dummy.flow_loop start turns total g)
  = result (Dummy.flow_loop start turns total g') /\
  trace (Dummy.flow_loop start turns total g)
  = trace (Dummy.flow_loop start turns total g').
Proof.
  induction turns as [|t later IH]; intros total g g'.
  - split; reflexivity.
  - rewrite !flow_loop_turn.
    destruct (DummySpec.in_window start t); cbn; try (split; reflexivity).
    destruct (IH (total + Dummy.pulses t)%Z g g') as [-> ->].
    split; reflexivity.
Qed.

(** Each call stalls exactly when its loop does. *)
Lemma start_dispensing_running D c w g :
  result (Rfid.metering_loop (Rfid.current_card_uid g) (Rfid.start_time w)
            (Rfid.ticks w) 0 g) = Running ->
  Rfid.start_dispensing D c w g =
  mkRun Running g
        (Log INFO "Starting water dispensing..."
         :: trace (Rfid.metering_loop (Rfid.current_card_uid g)
                     (Rfid.start_time w) (Rfid.ticks w) 0 g)).
Proof.
  intro Hp.
  pose proof (metering_loop_final (Rfid.current_card_uid g) (Rfid.start_time w)
                (Rfid.ticks w) 0 g) as Hf.
  unfold Rfid.start_dispensing. step_monad.
  destruct (Rfid.metering_loop (Rfid.current_card_uid g) (Rfid.start_time w)
              (Rfid.ticks w) 0 g) as [res fin tl].
  cbn in Hp, Hf. subst res fin. reflexivity.
Qed.




(** ** The message handlers *)

(** The handler of [water_dispense_with_rfid.py] on a fresh authorization
    record. *)
Lemma rfid_on_message_auth D c w d g :
  Rfid.on_message D c w
    (mkMessage false (Rfid.TOPIC_SUB_AUTH D) (Json (JObj d))) g =
  let bal := dict_get "balance" d (JNum 0) in
  if truthy (dict_get "exists" d (JBool false)) then
    let r := Rfid.start_dispensing D c w
               (Rfid.mkGlobals true bal (Rfid.current_card_uid g)) in
    match result r with
    | Returned _ =>
        mkRun (Returned tt)
              (Rfid.mkGlobals false (Rfid.balance (final r))
                              (Rfid.current_card_uid (final r)))
              (recv_log :: auth_log :: trace r)
    | Raised _ =>
        mkRun (Returned tt) (final r)
              (recv_log :: auth_log :: trace r ++ [err_log])
    | Running =>
        mkRun Running (final r) (recv_log :: auth_log :: trace r)
    end
  else
    mkRun (Returned tt)
          (Rfid.mkGlobals (Rfid.authenticated g) bal (Rfid.current_card_uid g))
          [recv_log; denial_log].
Proof.
  unfold Rfid.on_message, Rfid.set_balance, Rfid.set_authenticated,
    decode, json_loads, data_get.
  cbn [retain topic body]. rewrite String.eqb_refl.
  step_monad.
  destruct (truthy (dict_get "exists" d (JBool false))); [|reflexivity].
  cbn.
  destruct (Rfid.start_dispensing D c w _) as [[a|e|] g1 tr1]; cbn;
    rewrite ?app_nil_r, <- ?app_assoc; reflexivity.
Qed.

(** The handler of [mqtt_dummy_water_dispence.py] on a fresh authorization
    record. *)
Lemma dummy_on_message_auth D c w d g :
  Dummy.on_message D c w
    (mkMessage false (Dummy.TOPIC_SUB_AUTH D) (Json (JObj d))) g =
  let bal := dict_get "balance" d (JNum 0) in
  if truthy (dict_get "exists" d (JBool false)) then
    let r := Dummy.dispense_water D c w (Dummy.mkGlobals true bal) in
    match result r with
    | Returned _ =>
        mkRun (Returned tt) (Dummy.mkGlobals false (Dummy.balance (final r)))
              (recv_log :: auth_log :: trace r)
    | Raised _ =>
        mkRun (Returned tt) (final r)
              (recv_log :: auth_log :: trace r ++ [err_log])
    | Running =>
        mkRun Running (final r) (recv_log :: auth_log :: trace r)
    end
  else
    mkRun (Returned tt) (Dummy.mkGlobals (Dummy.authenticated g) bal)
          [recv_log; denial_log].
Proof.
  unfold Dummy.on_message, Dummy.set_balance, Dummy.set_authenticated,
    decode, json_loads, data_get.
  cbn [retain topic body]. rewrite String.eqb_refl.
  step_monad.
  destruct (truthy (dict_get "exists" d (JBool false))); [|reflexivity].
  cbn.
  destruct (Dummy.dispense_water D c w _) as [[a|e|] g1 tr1]; cbn;
    rewrite ?app_nil_r, <- ?app_assoc; reflexivity.
Qed.

(** The handler reads a record through [get] with defaults only, so a
    record and its completion are handled alike. *)
Lemma rfid_on_message_defaults D c w r t d g :
  Rfid.on_message D c w (mkMessage r t (Json (JObj d))) g =
  Rfid.on_message D c w (mkMessage r t (Json (JObj (with_defaults d)))) g.
Proof.
  destruct r; [reflexivity|].
  unfold Rfid.on_message, decode, json_loads, data_get.
  cbn [retain topic body]. step_monad.
  rewrite dict_get_with_defaults_exists, dict_get_with_defaults_balance,
    dict_get_with_defaults_updated.
  reflexivity.
Qed.

(** A payload that is not a JSON object is dropped by the [except] clause of
    the handler. *)
Lemma rfid_on_message_malformed D c w t p g :
  malformed p = true ->
  t = Rfid.TOPIC_SUB_AUTH D \/ t = Rfid.TOPIC_SUB_CONFIRM D ->
  Rfid.on_message D c w (mkMessage false t p) g =
  mkRun (Returned tt) g (drop_trace p).
Proof.
  intros Hp Ht.
  unfold Rfid.on_message, decode, json_loads, data_get.
  cbn [retain topic body].
  destruct p as [| |v]; [reflexivity | reflexivity |].
  destruct v; try discriminate Hp;
    (destruct (String.eqb t (Rfid.TOPIC_SUB_AUTH D)) eqn:E; [reflexivity|];
     destruct (String.eqb t (Rfid.TOPIC_SUB_CONFIRM D)) eqn:E';
     [reflexivity|];
     exfalso; destruct Ht as [-> | ->];
     rewrite String.eqb_refl in *; discriminate).
Qed.

(** * The claims *)

(** ** C1: a denial *)

(** C1, as stated, fails: a denial that carries no balance resets the
    balance of the terminal from 5 to 0, because the handler stores the
    balance field of every authorization record before it looks at
    [exists]. *)
Lemma denial_resets_balance :
  let r := Rfid.on_message Scenario.device Scenario.online Scenario.full_run
             (Scenario.auth_message Scenario.bare_denial) Scenario.idle in
  dict_get "exists" Scenario.bare_denial (JBool false) = JBool false /\
  result r = Returned tt /\
  Rfid.balance Scenario.idle = JNum 5 /\
  Rfid.balance (final r) = JNum 0 /\
  final r <> Scenario.idle.
Proof.
  vm_compute. repeat split; discriminate.
Qed.

(** C1 (amended).  For every fresh authorization record whose [exists] is
    false (or absent), in both programs, the handler returns after logging
    the receipt and the denial: no metering run is started and nothing is
    published, [authenticated] and [current_card_uid] keep their values, and
    [balance] becomes the balance field of the record (0 when the record has
    none). *)
Theorem denial_records_balance_only D c w w' d g g' :
  truthy (dict_get "exists" d (JBool false)) = false ->
  Rfid.on_message D c w
    (mkMessage false (Rfid.TOPIC_SUB_AUTH D) (Json (JObj d))) g
  = mkRun (Returned tt)
          (Rfid.mkGlobals (Rfid.authenticated g)
                          (dict_get "balance" d (JNum 0))
                          (Rfid.current_card_uid g))
          [recv_log; denial_log]
  /\
  Dummy.on_message D c w'
    (mkMessage false (Dummy.TOPIC_SUB_AUTH D) (Json (JObj d))) g'
  = mkRun (Returned tt)
          (Dummy.mkGlobals (Dummy.authenticated g')
                           (dict_get "balance" d (JNum 0)))
          [recv_log; denial_log].
Proof.
  intro H. split.
  - rewrite rfid_on_message_auth. cbn zeta. rewrite H. reflexivity.
  - rewrite dummy_on_message_auth. cbn zeta. rewrite H. reflexivity.
Qed.

Lemma denial_records_balance_only_witness :
  truthy (dict_get "exists" [("exists", JBool false); ("balance", JNum 7)]
                   (JBool false)) = false /\
  Rfid.on_message Scenario.device Scenario.online Scenario.full_run
    (mkMessage false (Rfid.TOPIC_SUB_AUTH Scenario.device)
       (Json (JObj [("exists", JBool false); ("balance", JNum 7)])))
    Scenario.idle
  = mkRun (Returned tt) (Rfid.mkGlobals false (JNum 7) (Some 42%Z))
          [recv_log; denial_log].
Proof.
  split; [reflexivity|].
  exact (proj1 (denial_records_balance_only Scenario.device Scenario.online
                  Scenario.full_run Scenario.dummy_run
                  [("exists", JBool false); ("balance", JNum 7)]
                  Scenario.idle Scenario.dummy_idle eq_refl)).
Defined.

(** ** C2: the debit *)

(** The numbers a float can hold, bounds excluded. *)
Lemma in_float_range_bounds b :
  in_float_range b = true <->
  - inject_Z float_limit < b /\ b < inject_Z float_limit.
Proof.
  unfold in_float_range. rewrite andb_true_iff, !Qltb_lt. reflexivity.
Qed.

(** C2, as stated, fails for a balance that no float can hold.  With the
    integer [2^1024] as balance the water runs (ten pulses, two hundredths
    of a liter) and then the debit [balance -= dispensed_liters] raises
    [OverflowError], because the integer has to be converted to a float.
    The balance stays [2^1024], which is not [max(b - d, 0)], and no result
    is published. *)
Lemma huge_balance_not_debited :
  let b := inject_Z (2 ^ 1024) in
  let g := Rfid.mkGlobals true (JNum b) (Some 42%Z) in
  let d := Rfid.liters_of_pulses 10 in
  let r := Rfid.start_dispensing Scenario.device Scenario.online
             Scenario.full_run g in
  0 <= b /\
  result (Rfid.metering_loop (Some 42%Z) 100 (Rfid.ticks Scenario.full_run)
            0 g) = Returned 10%Z /\
  0 <= d /\
  result r = Raised OverflowError /\
  Rfid.balance (final r) = JNum b /\
  ~ b == Qmax (b - d) 0 /\
  published (trace r) = [].
Proof.
  cbv zeta.
  split; [vm_compute; discriminate|].
  split; [vm_compute; reflexivity|].
  split; [vm_compute; discriminate|].
  split; [vm_compute; reflexivity|].
  split; [vm_compute; reflexivity|].
  split; [|vm_compute; reflexivity].
  intro E. apply Qeq_bool_iff in E. vm_compute in E. discriminate E.
Qed.

(** C2 (amended).  Let the balance [b] at the start of a metering run be a
    number, and let the run end having counted [p] pulses, that is having
    dispensed [d = round(p * 2 / 1000, 2)].  If a float can hold [b], which
    is so for every float and for every integer of absolute value below
    [2^1024 - 2^970], the call returns and the balance after the run is
    [max(b - d, 0)], which is not negative.  If not, the debit raises
    [OverflowError] and the balance is left as it was. *)
Theorem debit_clamps_at_zero D c w g b p :
  as_number (Rfid.balance g) = Some b ->
  result (Rfid.metering_loop (Rfid.current_card_uid g) (Rfid.start_time w)
            (Rfid.ticks w) 0 g) = Returned p ->
  let limit := inject_Z (2 ^ 1024 - 2 ^ 970) in
  let d := py_round2 (inject_Z (p * 2) / 1000) in
  let r := Rfid.start_dispensing D c w g in
  (- limit < b /\ b < limit ->
   result r = Returned tt /\
   exists q, Rfid.balance (final r) = JNum q /\
             q == Qmax (b - d) 0 /\
             0 <= q)
  /\
  (~ (- limit < b /\ b < limit) ->
   result r = Raised OverflowError /\ final r = g).
Proof.
  intros Hb Hp limit d r. subst r. split; intro Hr.
  - apply in_float_range_bounds in Hr.
    rewrite (start_dispensing_returned D c w g p b Hp Hb Hr). cbn.
    split; [reflexivity|].
    exists (py_max (b - d) 0). split; [reflexivity|]. split.
    + apply py_max_is_Qmax.
    + apply py_max_zero_nonneg.
  - assert (Hr' : in_float_range b = false).
    { destruct (in_float_range b) eqn:E; [|reflexivity].
      exfalso. apply Hr. apply in_float_range_bounds. exact E. }
    rewrite (start_dispensing_overflow D c w g p b Hp Hb Hr').
    split; reflexivity.
Qed.

Lemma debit_clamps_at_zero_witness :
  as_number (Rfid.balance Scenario.authorised) = Some 10 /\
  result (Rfid.metering_loop (Some 42%Z) 100
            (Rfid.ticks Scenario.full_run) 0 Scenario.authorised)
    = Returned 10%Z /\
  (- inject_Z (2 ^ 1024 - 2 ^ 970) < 10 /\
   10 < inject_Z (2 ^ 1024 - 2 ^ 970)) /\
  exists q,
    Rfid.balance (final (Rfid.start_dispensing Scenario.device Scenario.online
                           Scenario.full_run Scenario.authorised)) = JNum q /\
    q == Qmax (10 - py_round2 (inject_Z (10 * 2) / 1000)) 0 /\
    0 <= q.
Proof.
  assert (Hr : - inject_Z (2 ^ 1024 - 2 ^ 970) < 10 /\
               10 < inject_Z (2 ^ 1024 - 2 ^ 970))
    by (split; vm_compute; reflexivity).
  split; [reflexivity|]. split; [reflexivity|]. split; [exact Hr|].
  exact (proj2 (proj1 (debit_clamps_at_zero Scenario.device Scenario.online
                         Scenario.full_run Scenario.authorised 10 10%Z
                         eq_refl eq_refl) Hr)).
Defined.

(** ** C3: the dispensed volume *)

(** What [start_dispensing] publishes, in every case: nothing, or the one
    result of a debit that went through. *)
Lemma start_dispensing_published D c w g :
  published (trace (Rfid.start_dispensing D c w g)) = [] \/
  exists p b,
    result (Rfid.metering_loop (Rfid.current_card_uid g) (Rfid.start_time w)
              (Rfid.ticks w) 0 g) = Returned p /\
    as_number (Rfid.balance g) = Some b /\
    in_float_range b = true /\
    is_connected c = true /\
    published (trace (Rfid.start_dispensing D c w g))
    = [(Rfid.TOPIC_PUB_RESULT D,
        Rfid.result_msg (Rfid.liters_of_pulses p)
          (py_max (b - Rfid.liters_of_pulses p) 0))].
Proof.
  pose proof (metering_loop_never_raises (Rfid.current_card_uid g)
                (Rfid.start_time w) (Rfid.ticks w) 0 g) as Hnr.
  pose proof (metering_loop_published (Rfid.current_card_uid g)
                (Rfid.start_time w) (Rfid.ticks w) 0 g) as Hpub.
  destruct (result (Rfid.metering_loop (Rfid.current_card_uid g)
                      (Rfid.start_time w) (Rfid.ticks w) 0 g)) as [p|e|] eqn:Hp.
  - destruct (as_number (Rfid.balance g)) as [b|] eqn:Hb;
      [destruct (in_float_range b) eqn:Hr|].
    + destruct (is_connected c) eqn:Hc.
      * right. exists p, b.
        split; [reflexivity|]. split; [reflexivity|]. split; [exact Hr|].
        split; [reflexivity|].
        rewrite (start_dispensing_returned D c w g p b Hp Hb Hr).
        cbn [trace published]. rewrite published_app, Hpub.
        unfold RfidSpec.report. rewrite Hc. reflexivity.
      * left. rewrite (start_dispensing_returned D c w g p b Hp Hb Hr).
        cbn [trace published]. rewrite published_app, Hpub.
        unfold RfidSpec.report. rewrite Hc. reflexivity.
    + left. rewrite (start_dispensing_overflow D c w g p b Hp Hb Hr).
      cbn [trace published]. rewrite published_app, Hpub. reflexivity.
    + left. rewrite (start_dispensing_type_error D c w g p Hp Hb).
      cbn [trace published]. rewrite published_app, Hpub. reflexivity.
  - exfalso. exact (Hnr e eq_refl).
  - left. rewrite (start_dispensing_running D c w g Hp).
    cbn [trace published]. exact Hpub.
Qed.

(** C3.  Let the loop of a metering run end having counted [p >= 0] pulses,
    and let [d = round(p * 2 / 1000, 2)].  Then [d] is not negative; every
    message the call publishes, whatever the balance and the client, is on
    the result topic and is a record whose dispensed volume is [d]; and
    with a balance the debit can be computed on and a connected client that
    record is published, with the debited balance rounded to two places
    beside it. *)
Theorem dispensed_volume_of_pulses D c w g p :
  (0 <= p)%Z ->
  result (Rfid.metering_loop (Rfid.current_card_uid g) (Rfid.start_time w)
            (Rfid.ticks w) 0 g) = Returned p ->
  let d := py_round2 (inject_Z (p * 2) / 1000) in
  let sent := published (trace (Rfid.start_dispensing D c w g)) in
  0 <= d /\
  (forall m, In m sent ->
     exists bal,
       m = (("water_atm/" ++ D ++ "/result")%string,
            JObj [("dispensed"%string, JNum d);
                  ("updated_balance"%string, JNum bal)])) /\
  (forall b,
     as_number (Rfid.balance g) = Some b ->
     in_float_range b = true ->
     is_connected c = true ->
     sent = [(("water_atm/" ++ D ++ "/result")%string,
              JObj [("dispensed"%string, JNum d);
                    ("updated_balance"%string,
                     JNum (py_round2 (py_max (b - d) 0)))])]).
Proof.
  intros Hpos Hp d sent. subst sent.
  split; [apply liters_nonneg; exact Hpos|]. split.
  - intros m Hm.
    destruct (start_dispensing_published D c w g)
      as [E|(p' & b & Hp' & _ & _ & _ & E)]; rewrite E in Hm.
    + destruct Hm.
    + rewrite Hp in Hp'. injection Hp' as <-.
      destruct Hm as [<-|[]].
      exists (py_round2 (py_max (b - d) 0)). reflexivity.
  - intros b Hb Hr Hc.
    rewrite (start_dispensing_returned D c w g p b Hp Hb Hr).
    cbn [trace published]. rewrite published_app, metering_loop_published.
    unfold RfidSpec.report. rewrite Hc. reflexivity.
Qed.

Lemma dispensed_volume_of_pulses_witness :
  (0 <= 10)%Z /\
  result (Rfid.metering_loop (Some 42%Z) 100
            (Rfid.ticks Scenario.full_run) 0 Scenario.authorised)
    = Returned 10%Z /\
  in_float_range 10 = true /\
  published (trace (Rfid.start_dispensing Scenario.device Scenario.online
                      Scenario.full_run Scenario.authorised))
  = [("water_atm/atm-0000deadbeef/result"%string,
      JObj [("dispensed"%string,
             JNum (py_round2 (inject_Z (10 * 2) / 1000)));
            ("updated_balance"%string,
             JNum (py_round2
                     (py_max (10 - py_round2 (inject_Z (10 * 2) / 1000))
                             0)))])].
Proof.
  assert (Hpos : (0 <= 10)%Z) by (intro H; discriminate H).
  assert (Hr : in_float_range 10 = true) by (vm_compute; reflexivity).
  split; [exact Hpos|]. split; [reflexivity|]. split; [exact Hr|].
  exact (proj2 (proj2 (dispensed_volume_of_pulses Scenario.device
                         Scenario.online Scenario.full_run
                         Scenario.authorised 10%Z Hpos eq_refl))
           10 eq_refl Hr eq_refl).
Defined.

(** ** C4: the card is swapped or removed during a run *)



(** ** C5: the flag after a cycle *)

(** A cycle completes, whichever way the loop ends, when the debit can be
    computed on the balance of the authorization. *)
Lemma cycle_completes D c start pre t post g b :
  forallb (RfidSpec.steady (Rfid.current_card_uid g) start) pre = true ->
  RfidSpec.steady (Rfid.current_card_uid g) start t = false ->
  as_number (Rfid.balance g) = Some b ->
  in_float_range b = true ->
  result (Rfid.start_dispensing D c (Rfid.mkWindow start (pre ++ t :: post)) g)
  = Returned tt.
Proof.
  intros Hpre Ht Hb Hr.
  assert (Hloop : result (Rfid.metering_loop (Rfid.current_card_uid g) start
                            (pre ++ t :: post) 0 g)
                  = Returned (RfidSpec.sum_pulses pre)).
  { unfold RfidSpec.steady in Ht.
    destruct (RfidSpec.in_window start t) eqn:Hw.
    - cbn in Ht.
      rewrite (metering_loop_cancelled _ _ _ _ _ _ _ Hpre Hw Ht). reflexivity.
    - rewrite (metering_loop_elapsed _ _ _ _ _ _ _ Hpre Hw). reflexivity. }
  rewrite (start_dispensing_returned D c
             (Rfid.mkWindow start (pre ++ t :: post)) g _ b Hloop Hb Hr).
  reflexivity.
Qed.

(** When the call of [start_dispensing] returns, the handler clears the
    flag. *)
Lemma authenticated_cleared_after_cycle D c w d g :
  truthy (dict_get "exists" d (JBool false)) = true ->
  result (Rfid.start_dispensing D c w
            (Rfid.mkGlobals true (dict_get "balance" d (JNum 0))
                            (Rfid.current_card_uid g)))
  = Returned tt ->
  let r := Rfid.on_message D c w
             (mkMessage false (Rfid.TOPIC_SUB_AUTH D) (Json (JObj d))) g in
  result r = Returned tt /\ Rfid.authenticated (final r) = false.
Proof.
  intros Hex Hrun r. subst r.
  rewrite rfid_on_message_auth. cbn zeta. rewrite Hex, Hrun.
  split; reflexivity.
Qed.

(** C5 does not hold of the code for every cycle.  Let a fresh
    authorization grant access and let the loop of the metering it starts
    come to its end, after the whole window or cut short by the card.  The
    handler then returns, and [authenticated] is false exactly when the
    debit went through.  When the balance field is not a number, or is an
    integer that no float can hold, the water has run, the debit raises,
    the [except] clause of the handler logs the error, and the assignment
    [authenticated = False] that follows the call is skipped: the flag
    stays true. *)
Theorem authenticated_stays_set_when_debit_raises D c w d g p :
  truthy (dict_get "exists" d (JBool false)) = true ->
  result (Rfid.metering_loop (Rfid.current_card_uid g) (Rfid.start_time w)
            (Rfid.ticks w) 0 g) = Returned p ->
  let r := Rfid.on_message D c w
             (mkMessage false (Rfid.TOPIC_SUB_AUTH D) (Json (JObj d))) g in
  result r = Returned tt /\
  Rfid.authenticated (final r)
  = match as_number (dict_get "balance" d (JNum 0)) with
    | Some b => negb (in_float_range b)
    | None => true
    end.
Proof.
  intros Hex Hp r. subst r.
  rewrite rfid_on_message_auth. cbn zeta. rewrite Hex.
  set (g1 := Rfid.mkGlobals true _ _).
  assert (Hp1 : result (Rfid.metering_loop (Rfid.current_card_uid g1)
                          (Rfid.start_time w) (Rfid.ticks w) 0 g1)
                = Returned p).
  { rewrite <- Hp. apply metering_loop_ignores_globals. }
  destruct (as_number (dict_get "balance" d (JNum 0))) as [b|] eqn:Hb;
    [destruct (in_float_range b) eqn:Hr|].
  - rewrite (start_dispensing_returned D c w g1 p b Hp1 Hb Hr).
    split; reflexivity.
  - rewrite (start_dispensing_overflow D c w g1 p b Hp1 Hb Hr).
    split; reflexivity.
  - rewrite (start_dispensing_type_error D c w g1 p Hp1 Hb).
    split; reflexivity.
Qed.

Lemma authenticated_stays_set_when_debit_raises_witness :
  truthy (dict_get "exists"
            [("exists"%string, JBool true); ("balance"%string, JNull)]
            (JBool false)) = true /\
  result (Rfid.metering_loop (Some 42%Z) 100 (Rfid.ticks Scenario.full_run)
            0 Scenario.idle) = Returned 10%Z /\
  result (Rfid.on_message Scenario.device Scenario.online Scenario.full_run
            (Scenario.auth_message
               [("exists"%string, JBool true); ("balance"%string, JNull)])
            Scenario.idle) = Returned tt /\
  Rfid.authenticated
    (final (Rfid.on_message Scenario.device Scenario.online Scenario.full_run
              (Scenario.auth_message
                 [("exists"%string, JBool true); ("balance"%string, JNull)])
              Scenario.idle)) = true.
Proof.
  split; [reflexivity|]. split; [reflexivity|].
  exact (authenticated_stays_set_when_debit_raises Scenario.device
           Scenario.online Scenario.full_run
           [("exists"%string, JBool true); ("balance"%string, JNull)]
           Scenario.idle 10%Z eq_refl eq_refl).
Defined.

(** When the balance of the authorization is not a number the debit raises
    after the water has run; the handler logs the error and returns with
    [authenticated] still set. *)
Remark non_numeric_balance_leaves_flag_set :
  let r := Rfid.on_message Scenario.device Scenario.online Scenario.full_run
             (Scenario.auth_message
                [("exists"%string, JBool true); ("balance"%string, JNull)])
             Scenario.idle in
  result r = Returned tt /\
  final r = Rfid.mkGlobals true JNull (Some 42%Z) /\
  published (trace r) = [] /\
  List.length (sleeps (trace r)) = 3%nat.
Proof. vm_compute. repeat split. Qed.

(** ** C6: protocol faults *)

(** C6, as stated, fails for a record that lacks a field: a grant without a
    balance is not dropped.  The handler reads the balance as 0, overwrites
    the 5 liters of the terminal, runs the metering and publishes a
    result. *)
Lemma missing_balance_not_dropped :
  let r := Rfid.on_message Scenario.device Scenario.online Scenario.full_run
             (Scenario.auth_message Scenario.grant_without_balance)
             Scenario.idle in
  missing_field Scenario.grant_without_balance = true /\
  final r = Rfid.mkGlobals false (JNum 0) (Some 42%Z) /\
  final r <> Scenario.idle /\
  List.length (published (trace r)) = 1%nat /\
  List.length (sleeps (trace r)) = 3%nat.
Proof.
  vm_compute. repeat split. discriminate.
Qed.

(** C6 (amended).  A fresh message on a subscribed topic whose payload is
    not the text of a JSON object (undecodable bytes, invalid JSON, or a
    JSON value that is not an object) is dropped: the handler logs an error,
    leaves the globals as they were, and returns, so that the next message
    is processed.  A field that is absent from a record is not a fault: the
    record is handled exactly as if it carried the defaults [exists = false],
    [balance = 0], [updated = false]. *)
Theorem malformed_dropped_missing_defaulted D c w t p d g :
  (malformed p = true ->
   t = Rfid.TOPIC_SUB_AUTH D \/ t = Rfid.TOPIC_SUB_CONFIRM D ->
   Rfid.on_message D c w (mkMessage false t p) g
   = mkRun (Returned tt) g (drop_trace p))
  /\
  Rfid.on_message D c w (mkMessage false t (Json (JObj d))) g
  = Rfid.on_message D c w (mkMessage false t (Json (JObj (with_defaults d)))) g.
Proof.
  split.
  - apply rfid_on_message_malformed.
  - apply rfid_on_message_defaults.
Qed.

Lemma malformed_dropped_missing_defaulted_witness :
  malformed (Json (JArr [JNum 1])) = true /\
  Rfid.on_message Scenario.device Scenario.online Scenario.full_run
    (mkMessage false (Rfid.TOPIC_SUB_AUTH Scenario.device)
               (Json (JArr [JNum 1]))) Scenario.idle
  = mkRun (Returned tt) Scenario.idle [recv_log; err_log].
Proof.
  split; [reflexivity|].
  exact (proj1 (malformed_dropped_missing_defaulted Scenario.device
                  Scenario.online Scenario.full_run
                  (Rfid.TOPIC_SUB_AUTH Scenario.device)
                  (Json (JArr [JNum 1])) [] Scenario.idle)
               eq_refl (or_introl eq_refl)).
Defined.

(** ** C7: retained messages *)

(** C7.  A retained message, whatever its topic and payload, makes the
    handler return at once: the globals are as they were and the trace holds
    the warning alone, so nothing is dispensed and nothing is published. *)
Theorem retained_message_ignored D c w w' t p g g' :
  Rfid.on_message D c w (mkMessage true t p) g
  = mkRun (Returned tt) g [retained_log]
  /\
  Dummy.on_message D c w' (mkMessage true t p) g'
  = mkRun (Returned tt) g' [retained_log].
Proof.
  split; reflexivity.
Qed.

(** ** C8: disconnects *)

(** The callback of [mqtt_dummy_water_dispence.py], called as the client of
    [main] calls it, retries after an unexpected disconnect until a
    reconnect succeeds: [n] failures cost [n + 1] attempts and [n] pauses of
    five seconds. *)
Lemma unexpected_disconnect_retries rc n later g :
  rc <> MQTT_ERR_SUCCESS ->
  Dummy.on_disconnect (version2_disconnect rc)
    (repeat false n ++ true :: later) g
  = mkRun (Returned tt) g
          (Log WARNING "Disconnected unexpectedly from MQTT broker"
           :: rounds n).
Proof.
  intro Hrc. unfold Dummy.on_disconnect, version2_disconnect, arg_eqb.
  destruct (Z.eqb_spec rc MQTT_ERR_SUCCESS) as [E|_]; [contradiction|].
  step_monad. rewrite reconnect_loop_retries. reflexivity.
Qed.

(** It does not give up while the reconnects keep failing. *)
Lemma unexpected_disconnect_persists rc n g :
  rc <> MQTT_ERR_SUCCESS ->
  result (Dummy.on_disconnect (version2_disconnect rc) (repeat false n) g)
  = Running.
Proof.
  intro Hrc. unfold Dummy.on_disconnect, version2_disconnect, arg_eqb.
  destruct (Z.eqb_spec rc MQTT_ERR_SUCCESS) as [E|_]; [contradiction|].
  step_monad.
  pose proof (reconnect_loop_persists n g) as H.
  destruct (reconnect_loop (repeat false n) g) as [res fin tl].
  cbn in H. subst res. reflexivity.
Qed.

(** The body of the callback of [water_dispense_with_rfid.py], entered by a
    call that passes [rc] alone, runs the reconnect loop whatever [rc]
    is. *)
Lemma rfid_on_disconnect_body rc n later g :
  Rfid.on_disconnect [Code rc] (repeat false n ++ true :: later) g
  = mkRun (Returned tt) g
          (Log WARNING "Disconnected from MQTT broker" :: rounds n).
Proof.
  unfold Rfid.on_disconnect. step_monad.
  rewrite reconnect_loop_retries. reflexivity.
Qed.

(** C8 does not hold of [water_dispense_with_rfid.py].  In both programs
    [main] creates the client with [CallbackAPIVersion.VERSION2], so that
    the client calls [on_disconnect] with five positional arguments.  The
    callback of [mqtt_dummy_water_dispence.py] has five parameters and does
    what the claim says: after an unexpected disconnect it attempts to
    reconnect, sleeps five seconds after each failure, returns at the first
    success and is still in the loop while every attempt fails; after a
    clean disconnect it returns without an attempt.  The callback of
    [water_dispense_with_rfid.py] has four parameters: the call raises
    [TypeError] before its body is entered, so that after an unexpected
    disconnect no reconnect is attempted at all.  Its body, entered by a
    call with [rc] alone, would not tell a clean disconnect from an
    unexpected one either. *)
Theorem rfid_disconnect_callback_raises rc n later g g' :
  rc <> MQTT_ERR_SUCCESS ->
  let attempts := repeat false n ++ true :: later in
  (Dummy.on_disconnect (version2_disconnect rc) attempts g'
   = mkRun (Returned tt) g'
           (Log WARNING "Disconnected unexpectedly from MQTT broker"
            :: rounds n) /\
   result (Dummy.on_disconnect (version2_disconnect rc) (repeat false n) g')
   = Running /\
   Dummy.on_disconnect (version2_disconnect MQTT_ERR_SUCCESS) attempts g'
   = mkRun (Returned tt) g' [Log INFO "Disconnected cleanly from MQTT broker"])
  /\
  (Rfid.on_disconnect (version2_disconnect rc) attempts g
   = mkRun (Raised TypeError) g [] /\
   reconnects (trace (Rfid.on_disconnect (version2_disconnect rc) attempts g))
   = O /\
   Rfid.on_disconnect [Code MQTT_ERR_SUCCESS] attempts g
   = mkRun (Returned tt) g
           (Log WARNING "Disconnected from MQTT broker" :: rounds n)).
Proof.
  intros Hrc attempts. subst attempts. split; [split; [|split]|].
  - apply unexpected_disconnect_retries. exact Hrc.
  - apply unexpected_disconnect_persists. exact Hrc.
  - reflexivity.
  - split; [reflexivity|]. split; [reflexivity|].
    apply rfid_on_disconnect_body.
Qed.

Lemma rfid_disconnect_callback_raises_witness :
  128%Z <> MQTT_ERR_SUCCESS /\
  Dummy.on_disconnect (version2_disconnect 128) [false; true]
    Scenario.dummy_idle
  = mkRun (Returned tt) Scenario.dummy_idle
          [Log WARNING "Disconnected unexpectedly from MQTT broker";
           Log INFO "Attempting to reconnect..."; Reconnect;
           Log ERROR "Reconnect failed: {e}"; Sleep 5;
           Log INFO "Attempting to reconnect..."; Reconnect;
           Log INFO "Reconnected successfully"] /\
  Rfid.on_disconnect (version2_disconnect 128) [false; true] Scenario.idle
  = mkRun (Raised TypeError) Scenario.idle [].
Proof.
  assert (H : 128%Z <> MQTT_ERR_SUCCESS) by (intro E; discriminate E).
  split; [exact H|].
  pose proof (rfid_disconnect_callback_raises 128%Z 1 [] Scenario.idle
                Scenario.dummy_idle H) as T.
  cbv zeta in T.
  split; [exact (proj1 (proj1 T)) | exact (proj1 (proj2 T))].
Defined.

(** ** C9: the card monitor *)

Lemma poll_error D c g :
  Rfid.poll D c ReadRaises g
  = mkRun (Returned tt)
          (Rfid.mkGlobals (Rfid.authenticated g) (Rfid.balance g) None)
          [Sleep 1].
Proof. reflexivity. Qed.

Lemma poll_read D c uid g :
  Rfid.poll D c (ReadUid uid) g =
  if uid_differs uid (Rfid.current_card_uid g) then
    mkRun (Returned tt)
          (Rfid.mkGlobals (Rfid.authenticated g) (Rfid.balance g) (Some uid))
          (Log INFO "Publishing UID: {uid} to topic: {TOPIC_PUB_UID}"
           :: (if is_connected c
               then [Publish (fst (RfidSpec.uid_request D uid))
                             (snd (RfidSpec.uid_request D uid));
                     if Z.eqb (publish_rc c) MQTT_ERR_SUCCESS
                     then Log INFO "UID published successfully"
                     else Log WARNING
                            "Failed to publish UID. Status: {result.rc}"]
               else [Log ERROR "MQTT disconnected — skipping publish"])
           ++ [Sleep 1])
  else mkRun (Returned tt) g [Sleep 1].
Proof.
  unfold Rfid.poll, Rfid.reader_read, Rfid.set_current_card_uid. step_monad.
  destruct (uid_differs uid (Rfid.current_card_uid g)); cbn; [|reflexivity].
  destruct (is_connected c); cbn; [|reflexivity].
  destruct (publish_rc c =? MQTT_ERR_SUCCESS)%Z; reflexivity.
Qed.

(** C9, as stated, fails while the client is disconnected: after a read
    error the card is detected as new and recorded, but no authorization
    request is published for it. *)
Lemma fresh_card_offline_not_requested :
  let r := Rfid.main_loop Scenario.device
             [(Scenario.online, ReadRaises);
              (Scenario.offline, ReadUid 42)] Scenario.idle in
  result r = Returned tt /\
  Rfid.current_card_uid (final r) = Some 42%Z /\
  published (trace r) = [].
Proof.
  vm_compute. repeat split.
Qed.

(** C9 (amended).  A turn of the polling loop that reads the identifier
    already recorded publishes nothing and changes nothing.  A turn whose
    read fails resets [current_card_uid] to [None].  On the turn after such
    a failure any card, also the one recorded before the failure, is
    detected as new and recorded; the authorization request for it is
    published if the client is connected, and skipped if it is not. *)
Theorem card_monitor_reports_changes D c c' uid a bal g :
  Rfid.poll D c (ReadUid uid) (Rfid.mkGlobals a bal (Some uid))
  = mkRun (Returned tt) (Rfid.mkGlobals a bal (Some uid)) [Sleep 1]
  /\
  Rfid.current_card_uid (final (Rfid.poll D c ReadRaises g)) = None
  /\
  let r := Rfid.poll D c' (ReadUid uid) (final (Rfid.poll D c ReadRaises g)) in
  result r = Returned tt /\
  final r = Rfid.mkGlobals (Rfid.authenticated g) (Rfid.balance g) (Some uid)
  /\
  published (trace r)
  = if is_connected c' then [RfidSpec.uid_request D uid] else [].
Proof.
  split; [|split].
  - rewrite poll_read. cbn. rewrite Z.eqb_refl. reflexivity.
  - reflexivity.
  - rewrite poll_error. cbn [final]. rewrite poll_read. cbn.
    destruct (is_connected c'); cbn; [|repeat split].
    destruct (publish_rc c' =? MQTT_ERR_SUCCESS)%Z; repeat split.
Qed.

(** ** C10: a run that ends while the client is disconnected *)



(** ** The scenarios of the specification *)

(** Scenario A: a grant with balance 10 and a run of 1500 pulses report 3
    liters dispensed and 7 liters left. *)
Example scenario_grant_1500_pulses :
  let w := Rfid.mkWindow 0 [Rfid.mkTick 1 (ReadUid 42) 1500;
                            Rfid.mkTick 6 (ReadUid 42) 0] in
  let r := Rfid.on_message Scenario.device Scenario.online w
             (Scenario.auth_message Scenario.grant) Scenario.idle in
  exists d u,
    published (trace r)
    = [(Rfid.TOPIC_PUB_RESULT Scenario.device,
        JObj [("dispensed", JNum d); ("updated_balance", JNum u)])] /\
    d == 3 /\ u == 7 /\
    Rfid.authenticated (final r) = false.
Proof.
  eexists. eexists. vm_compute. repeat split.
Qed.

(** Scenario C: the card is swapped after 200 pulses; the result counts
    those pulses only. *)
Example scenario_swap_after_200_pulses :
  let w := Rfid.mkWindow 0 [Rfid.mkTick (1 # 5) (ReadUid 42) 200;
                            Rfid.mkTick 1 (ReadUid 77) 300;
                            Rfid.mkTick 6 (ReadUid 77) 0] in
  let r := Rfid.on_message Scenario.device Scenario.online w
             (Scenario.auth_message Scenario.grant) Scenario.idle in
  exists d u,
    published (trace r)
    = [(Rfid.TOPIC_PUB_RESULT Scenario.device,
        JObj [("dispensed", JNum d); ("updated_balance", JNum u)])] /\
    d == 4 # 10 /\ u == 96 # 10.
Proof.
  eexists. eexists. vm_compute. repeat split.
Qed.

(** * Further properties of the code *)

From Stdlib Require Import Lqa.

Import Cases.

(** ** [start_dispensing] in every case *)

Lemma start_dispensing_outcome D c w g :
  dispensing_outcome D c g (Rfid.start_dispensing D c w g).
Proof.
  pose proof (metering_loop_never_raises (Rfid.current_card_uid g)
                (Rfid.start_time w) (Rfid.ticks w) 0 g) as Hnr.
  pose proof (metering_loop_published (Rfid.current_card_uid g)
                (Rfid.start_time w) (Rfid.ticks w) 0 g) as Hpub.
  destruct (result (Rfid.metering_loop (Rfid.current_card_uid g)
                      (Rfid.start_time w) (Rfid.ticks w) 0 g)) as [p|e|] eqn:Hp.
  - destruct (as_number (Rfid.balance g)) as [b|] eqn:Hb;
      [destruct (in_float_range b) eqn:Hr|].
    + rewrite (start_dispensing_returned D c w g p b Hp Hb Hr). cbn zeta.
      set (tl := trace _) in *.
      assert (E : forall rep,
                 Log INFO "Starting water dispensing..."
                 :: tl ++ Log INFO "Water dispensed: {dispensed_liters} L"
                 :: rep
                 = (Log INFO "Starting water dispensing..."
                    :: tl ++ [Log INFO "Water dispensed: {dispensed_liters} L"])
                   ++ rep).
      { intro rep. cbn. rewrite <- app_assoc. reflexivity. }
      rewrite E. apply DispensingDone; [exact Hb | exact Hr |].
      cbn. rewrite published_app, Hpub. reflexivity.
    + rewrite (start_dispensing_overflow D c w g p b Hp Hb Hr).
      apply (DispensingOverflow D c g b); [exact Hb | exact Hr |].
      cbn. rewrite published_app, Hpub. reflexivity.
    + rewrite (start_dispensing_type_error D c w g p Hp Hb).
      apply DispensingTypeError; [exact Hb|].
      cbn. rewrite published_app, Hpub. reflexivity.
  - exfalso. exact (Hnr e eq_refl).
  - rewrite (start_dispensing_running D c w g Hp).
    apply DispensingStalled. cbn. exact Hpub.
Qed.

(** ** The handler of [water_dispense_with_rfid.py] on every message *)

Lemma try_except_log_result {S} (c : M S unit) lvl fmt (g : S) e :
  result (try_except c (fun _ => log lvl fmt) g) <> Raised e.
Proof.
  unfold try_except, log, emit.
  destruct (c g) as [[a|e'|] g1 tr1]; cbn; discriminate.
Qed.

(** A message that is retained, or fresh on another topic than the
    authorization topic, is logged and nothing else. *)
Lemma rfid_on_message_elsewhere D c w msg g :
  retain msg = true \/
  String.eqb (topic msg) (Rfid.TOPIC_SUB_AUTH D) = false ->
  exists tr,
    Rfid.on_message D c w msg g = mkRun (Returned tt) g tr /\
    published tr = [] /\ sleeps tr = [].
Proof.
  intro H. destruct msg as [r t p]. cbn [retain topic] in H.
  unfold Rfid.on_message, decode, json_loads, data_get.
  cbn [retain topic body].
  destruct r; [eexists; split; [reflexivity | split; reflexivity]|].
  destruct H as [H|H]; [discriminate|]. rewrite H.
  destruct p as [| |v];
    [eexists; split; [reflexivity | split; reflexivity] ..|].
  destruct (String.eqb t (Rfid.TOPIC_SUB_CONFIRM D));
    [|eexists; split; [reflexivity | split; reflexivity]].
  destruct v as [|b|q|s|l|d];
    try (eexists; split; [reflexivity | split; reflexivity]).
  step_monad.
  destruct (truthy (dict_get "updated" d (JBool false)));
    eexists; split; try reflexivity; split; reflexivity.
Qed.

(** A fresh message on the authorization topic whose payload is not an
    object is dropped. *)
Lemma rfid_on_message_auth_malformed D c w p g :
  malformed p = true ->
  Rfid.on_message D c w (mkMessage false (Rfid.TOPIC_SUB_AUTH D) p) g
  = mkRun (Returned tt) g (drop_trace p).
Proof.
  intro H. apply rfid_on_message_malformed; [exact H | left; reflexivity].
Qed.

Lemma drop_trace_published p : published (drop_trace p) = [].
Proof. destruct p; reflexivity. Qed.

Lemma report_published D c d bal :
  published (RfidSpec.report D c d bal)
  = if is_connected c
    then [(Rfid.TOPIC_PUB_RESULT D, Rfid.result_msg d bal)] else [].
Proof. unfold RfidSpec.report. destruct (is_connected c); reflexivity. Qed.

(** The shape of every message: retained or on another topic, malformed on
    the authorization topic, or an authorization record. *)
Lemma message_shape D (msg : message) :
  (retain msg = true \/
   String.eqb (topic msg) (Rfid.TOPIC_SUB_AUTH D) = false) \/
  (exists p, malformed p = true /\
             msg = mkMessage false (Rfid.TOPIC_SUB_AUTH D) p) \/
  (exists d, msg = mkMessage false (Rfid.TOPIC_SUB_AUTH D) (Json (JObj d))).
Proof.
  destruct msg as [r t p]. cbn [retain topic].
  destruct r; [left; left; reflexivity|].
  destruct (String.eqb_spec t (Rfid.TOPIC_SUB_AUTH D)) as [->|_];
    [|left; right; reflexivity].
  right.
  destruct p as [| |v]; [left; eexists; split; [|reflexivity]; reflexivity ..|].
  destruct v; try (left; eexists; split; [|reflexivity]; reflexivity).
  right. eexists. reflexivity.
Qed.

(** X1.  No exception leaves the message handler of either program,
    whatever the message and whatever the metering does: the errors raised
    while decoding, parsing, reading fields or debiting are all absorbed by
    the handler's [except] clause. *)
Theorem on_message_never_raises D c w w' msg g g' e :
  result (Rfid.on_message D c w msg g) <> Raised e /\
  result (Dummy.on_message D c w' msg g') <> Raised e.
Proof.
  split.
  - unfold Rfid.on_message. apply try_except_log_result.
  - unfold Dummy.on_message. apply try_except_log_result.
Qed.

(** X2.  The message handler never changes [current_card_uid]: whichever
    message arrives and however the metering ends (returned, raised or
    still running), the tracked card is the one the polling loop recorded. *)
Theorem on_message_keeps_card_uid D c w msg g :
  Rfid.current_card_uid (final (Rfid.on_message D c w msg g))
  = Rfid.current_card_uid g.
Proof.
  destruct (message_shape D msg) as [H|[(p & Hp & ->)|(d & ->)]].
  - destruct (rfid_on_message_elsewhere D c w msg g H) as (tr & -> & _).
    reflexivity.
  - rewrite (rfid_on_message_auth_malformed D c w p g Hp). reflexivity.
  - rewrite rfid_on_message_auth. cbn zeta.
    destruct (truthy (dict_get "exists" d (JBool false))); [|reflexivity].
    destruct (start_dispensing_outcome D c w
                (Rfid.mkGlobals true (dict_get "balance" d (JNum 0))
                   (Rfid.current_card_uid g))); reflexivity.
Qed.

(** X3.  The handler acts on fresh authorization messages only: a message
    that is retained, or that arrives on any other topic (the confirmation
    topic included), leaves the globals as they were, publishes nothing and
    starts no metering; it is only logged. *)
Theorem on_message_acts_on_fresh_auth_only D c w msg g :
  retain msg = true \/ topic msg <> Rfid.TOPIC_SUB_AUTH D ->
  let r := Rfid.on_message D c w msg g in
  result r = Returned tt /\ final r = g /\
  published (trace r) = [] /\ sleeps (trace r) = [].
Proof.
  intros H r. subst r.
  assert (H' : retain msg = true \/
               String.eqb (topic msg) (Rfid.TOPIC_SUB_AUTH D) = false).
  { destruct H as [H|H]; [left; exact H|right].
    apply String.eqb_neq. exact H. }
  destruct (rfid_on_message_elsewhere D c w msg g H') as (tr & -> & Hp & Hs).
  repeat split; assumption.
Qed.

(** X4.  Whatever the message, the handler publishes at most one message,
    and only on the result topic; it publishes none while the client is
    disconnected. *)
Theorem on_message_publishes_at_most_one_result D c w msg g :
  let sent := published (trace (Rfid.on_message D c w msg g)) in
  sent = [] \/
  (is_connected c = true /\
   exists payload, sent = [(Rfid.TOPIC_PUB_RESULT D, payload)]).
Proof.
  cbn zeta.
  destruct (message_shape D msg) as [H|[(p & Hp & ->)|(d & ->)]].
  - destruct (rfid_on_message_elsewhere D c w msg g H) as (tr & -> & Hpub & _).
    left. exact Hpub.
  - rewrite (rfid_on_message_auth_malformed D c w p g Hp).
    left. apply drop_trace_published.
  - rewrite rfid_on_message_auth. cbn zeta.
    destruct (truthy (dict_get "exists" d (JBool false))); [|left; reflexivity].
    destruct (start_dispensing_outcome D c w
                (Rfid.mkGlobals true (dict_get "balance" d (JNum 0))
                   (Rfid.current_card_uid g)))
      as [tl Htl|tl _ Htl|b tl _ _ Htl|p b tl _ _ Htl];
      cbn [result trace published recv_log auth_log].
    + left. exact Htl.
    + left. rewrite published_app, Htl. reflexivity.
    + left. rewrite published_app, Htl. reflexivity.
    + rewrite published_app, Htl, report_published. cbn [app].
      destruct (is_connected c); [right|left; reflexivity].
      split; [reflexivity|]. eexists. reflexivity.
Qed.

Lemma on_message_acts_on_fresh_auth_only_witness :
  topic (mkMessage false (Rfid.TOPIC_SUB_CONFIRM Scenario.device)
           (Json (JObj [("updated", JBool true)])))
  <> Rfid.TOPIC_SUB_AUTH Scenario.device /\
  final (Rfid.on_message Scenario.device Scenario.online Scenario.full_run
           (mkMessage false (Rfid.TOPIC_SUB_CONFIRM Scenario.device)
              (Json (JObj [("updated", JBool true)]))) Scenario.idle)
  = Scenario.idle.
Proof.
  assert (H : topic (mkMessage false (Rfid.TOPIC_SUB_CONFIRM Scenario.device)
                       (Json (JObj [("updated", JBool true)])))
              <> Rfid.TOPIC_SUB_AUTH Scenario.device)
    by (intro E; discriminate E).
  split; [exact H|].
  exact (proj1 (proj2 (on_message_acts_on_fresh_auth_only Scenario.device
                         Scenario.online Scenario.full_run _ Scenario.idle
                         (or_intror H)))).
Defined.

(** ** A grant whose balance is not a number *)

Ltac trace_norm :=
  repeat first
    [ rewrite published_app
    | rewrite sleeps_app
    | progress (cbn [published sleeps app
                     recv_log auth_log err_log denial_log]) ].

(** X5.  When a fresh authorization grants access but its balance field is
    not a number ([null], a string, a list or an object), the metering still
    runs for as long as it would with a numeric balance; the debit then
    raises, the handler logs the error and returns with [authenticated]
    left true and the field stored as the balance, and no result is
    published.  This holds in both programs. *)
Theorem grant_with_non_numeric_balance D c w w' d g g' p p' :
  truthy (dict_get "exists" d (JBool false)) = true ->
  as_number (dict_get "balance" d (JNum 0)) = None ->
  result (Rfid.metering_loop (Rfid.current_card_uid g) (Rfid.start_time w)
            (Rfid.ticks w) 0 g) = Returned p ->
  result (Dummy.flow_loop (Dummy.start_time w') (Dummy.ticks w') 0 g')
  = Returned p' ->
  let r := Rfid.on_message D c w
             (mkMessage false (Rfid.TOPIC_SUB_AUTH D) (Json (JObj d))) g in
  let r' := Dummy.on_message D c w'
              (mkMessage false (Dummy.TOPIC_SUB_AUTH D) (Json (JObj d))) g' in
  (result r = Returned tt /\
   final r = Rfid.mkGlobals true (dict_get "balance" d (JNum 0))
                            (Rfid.current_card_uid g) /\
   published (trace r) = [] /\
   sleeps (trace r)
   = sleeps (trace (Rfid.metering_loop (Rfid.current_card_uid g)
                      (Rfid.start_time w) (Rfid.ticks w) 0 g)))
  /\
  (result r' = Returned tt /\
   final r' = Dummy.mkGlobals true (dict_get "balance" d (JNum 0)) /\
   published (trace r') = [] /\
   sleeps (trace r')
   = sleeps (trace (Dummy.flow_loop (Dummy.start_time w') (Dummy.ticks w')
                      0 g'))).
Proof.
  intros Hex Hb Hp Hp' r r'. subst r r'.
  rewrite rfid_on_message_auth, dummy_on_message_auth. cbn zeta.
  rewrite Hex.
  set (g1 := Rfid.mkGlobals true _ _).
  set (g1' := Dummy.mkGlobals true _).
  assert (Hp1 : result (Rfid.metering_loop (Rfid.current_card_uid g1)
                          (Rfid.start_time w) (Rfid.ticks w) 0 g1)
                = Returned p).
  { rewrite <- Hp. apply metering_loop_ignores_globals. }
  assert (Hp1' : result (Dummy.flow_loop (Dummy.start_time w')
                           (Dummy.ticks w') 0 g1') = Returned p').
  { rewrite <- Hp'. apply flow_loop_ignores_globals. }
  rewrite (start_dispensing_type_error D c w g1 p Hp1 Hb).
  rewrite (dispense_water_type_error D c w' g1' p' Hp1' Hb).
  cbn [result final trace].
  split.
  - split; [reflexivity|]. split; [reflexivity|].
    trace_norm. rewrite metering_loop_published, !app_nil_r.
    split; [reflexivity|].
    f_equal. apply (proj2 (metering_loop_ignores_globals _ _ _ _ _ _)).
  - split; [reflexivity|]. split; [reflexivity|].
    trace_norm. rewrite flow_loop_published, !app_nil_r.
    split; [reflexivity|].
    f_equal. apply (proj2 (flow_loop_ignores_globals _ _ _ _ _)).
Qed.

Lemma grant_with_non_numeric_balance_witness :
  truthy (dict_get "exists" [("exists", JBool true); ("balance", JStr "10")]
            (JBool false)) = true /\
  as_number (dict_get "balance"
               [("exists", JBool true); ("balance", JStr "10")] (JNum 0))
  = None /\
  final (Rfid.on_message Scenario.device Scenario.online Scenario.full_run
           (mkMessage false (Rfid.TOPIC_SUB_AUTH Scenario.device)
              (Json (JObj [("exists", JBool true); ("balance", JStr "10")])))
           Scenario.idle)
  = Rfid.mkGlobals true (JStr "10") (Some 42%Z).
Proof.
  split; [reflexivity|]. split; [reflexivity|].
  exact (proj1 (proj2 (proj1
    (grant_with_non_numeric_balance Scenario.device Scenario.online
       Scenario.full_run Scenario.dummy_run
       [("exists", JBool true); ("balance", JStr "10")]
       Scenario.idle Scenario.dummy_idle 10%Z 8%Z
       eq_refl eq_refl eq_refl eq_refl)))).
Defined.

(** ** How much a metering run can dispense *)

Import Pace.

Lemma nat_Q_succ (n : nat) :
  inject_Z (Z.of_nat (S n)) == inject_Z (Z.of_nat n) + 1.
Proof.
  rewrite Nat2Z.inj_succ. unfold Z.succ. rewrite inject_Z_plus. reflexivity.
Qed.

Lemma metering_loop_count start turns : forall lo total g p,
  paced lo turns = true ->
  pulses_in_range turns = true ->
  result (Rfid.metering_loop (Rfid.current_card_uid g) start turns total g)
  = Returned p ->
  exists n : nat,
    sleeps (trace (Rfid.metering_loop (Rfid.current_card_uid g) start turns
                     total g)) = repeat (1 # 5) n /\
    (total + Z.of_nat n <= p <= total + 5 * Z.of_nat n)%Z /\
    (n = O \/ lo + (inject_Z (Z.of_nat n) - 1) * (1 # 5) < start + 5).
Proof.
  induction turns as [|t later IH]; intros lo total g p Hpace Hrange Hres.
  - discriminate.
  - rewrite metering_loop_turn in Hres |- *.
    cbn [paced] in Hpace. apply andb_true_iff in Hpace.
    destruct Hpace as [Hlo Hpace]. apply Qle_bool_iff in Hlo.
    cbn [pulses_in_range forallb] in Hrange. apply andb_true_iff in Hrange.
    destruct Hrange as [Ht Hrange]. apply andb_true_iff in Ht.
    destruct Ht as [H1 H5]. apply Z.leb_le in H1. apply Z.leb_le in H5.
    destruct (RfidSpec.in_window start t) eqn:Hw;
      [destruct (RfidSpec.keeps_card (Rfid.current_card_uid g) t)|].
    + cbn [result trace sleeps] in Hres |- *.
      destruct (IH _ _ g p Hpace Hrange Hres) as (n & Hs & Hp & Hn).
      exists (S n). rewrite Hs. split; [reflexivity|]. split; [lia|].
      right. unfold RfidSpec.in_window in Hw. apply Qltb_lt in Hw.
      unfold Rfid.duration in Hw. rewrite nat_Q_succ.
      destruct Hn as [->|Hn];
        [change (inject_Z (Z.of_nat 0)) with 0; lra|lra].
    + cbn [result trace sleeps] in Hres |- *. injection Hres as <-.
      exists O. split; [reflexivity|]. split; [lia|]. left; reflexivity.
    + cbn [result trace sleeps] in Hres |- *. injection Hres as <-.
      exists O. split; [reflexivity|]. split; [lia|]. left; reflexivity.
Qed.

(** X6.  If the clock does not run backwards, so that the pause at the end
    of a turn separates the clock samples of consecutive turns by at least
    0.2 s, and every pulse sample is one [random.randint(1, 5)] can give,
    then a metering run that ends has made at most 25 turns, has counted
    between one and five pulses a turn (at most 125), and dispenses at most
    a quarter of a liter. *)
Theorem metering_run_bounded w g p :
  paced (Rfid.start_time w) (Rfid.ticks w) = true ->
  pulses_in_range (Rfid.ticks w) = true ->
  result (Rfid.metering_loop (Rfid.current_card_uid g) (Rfid.start_time w)
            (Rfid.ticks w) 0 g) = Returned p ->
  let n := List.length
             (sleeps (trace (Rfid.metering_loop (Rfid.current_card_uid g)
                               (Rfid.start_time w) (Rfid.ticks w) 0 g))) in
  (n <= 25)%nat /\
  (Z.of_nat n <= p <= 5 * Z.of_nat n)%Z /\
  0 <= Rfid.liters_of_pulses p <= 1 # 4.
Proof.
  intros Hpace Hrange Hres.
  destruct (metering_loop_count _ _ _ 0%Z g p Hpace Hrange Hres)
    as (n & Hs & Hp & Hn).
  rewrite Hs, repeat_length. cbv zeta.
  assert (Hn25 : (n <= 25)%nat).
  { destruct Hn as [->|Hn]; [lia|].
    assert (HQ : inject_Z (Z.of_nat n) < inject_Z 26).
    { change (inject_Z 26) with 26. lra. }
    rewrite <- Zlt_Qlt in HQ. lia. }
  split; [exact Hn25|]. split; [lia|].
  unfold Rfid.liters_of_pulses. cbv zeta. split.
  - apply liters_nonneg. lia.
  - rewrite liters_closed_form.
    assert (Hq : ((p + 2) / 5 <= 25)%Z).
    { assert (((p + 2) / 5 < 26)%Z); [|lia].
      apply Z.div_lt_upper_bound; lia. }
    apply Qle_shift_div_r; [reflexivity|].
    apply (Qle_trans _ (inject_Z 25)); [rewrite <- Zle_Qle; exact Hq|].
    vm_compute. discriminate.
Qed.

Lemma metering_run_bounded_witness :
  paced 100 (Rfid.ticks Scenario.full_run) = true /\
  pulses_in_range (Rfid.ticks Scenario.full_run) = true /\
  0 <= Rfid.liters_of_pulses 10 <= 1 # 4.
Proof.
  split; [reflexivity|]. split; [reflexivity|].
  exact (proj2 (proj2 (metering_run_bounded Scenario.full_run
                         Scenario.authorised 10%Z eq_refl eq_refl eq_refl))).
Defined.

(** Under the same pacing the turn whose sample is five seconds after the
    start is outside the window, so the loop ends. *)
Lemma metering_loop_ends bound start turns : forall lo total g,
  paced lo turns = true ->
  turns <> [] ->
  start + 5 <= lo + (inject_Z (Z.of_nat (List.length turns)) - 1) * (1 # 5) ->
  exists p,
    result (Rfid.metering_loop bound start turns total g) = Returned p.
Proof.
  induction turns as [|t later IH]; intros lo total g Hpace Hne Hlen.
  - contradiction.
  - rewrite metering_loop_turn.
    cbn [paced] in Hpace. apply andb_true_iff in Hpace.
    destruct Hpace as [Hlo Hpace]. apply Qle_bool_iff in Hlo.
    destruct (RfidSpec.in_window start t) eqn:Hw;
      [destruct (RfidSpec.keeps_card bound t)|];
      try (eexists; reflexivity).
    cbn [result]. unfold RfidSpec.in_window in Hw. apply Qltb_lt in Hw.
    unfold Rfid.duration in Hw.
    cbn [List.length] in Hlen. rewrite nat_Q_succ in Hlen.
    apply (IH (Rfid.clock t + (1 # 5))); [exact Hpace| |].
    + destruct later; [|discriminate].
      exfalso. change (inject_Z (Z.of_nat (List.length (@nil Rfid.tick))))
        with 0 in Hlen. lra.
    + lra.
Qed.

(** X7.  With such a clock, 26 observations are always enough for
    [start_dispensing] to come to an end: the call returns, or raises at the
    debit, but is never still running. *)
Theorem start_dispensing_ends D c w g :
  paced (Rfid.start_time w) (Rfid.ticks w) = true ->
  (26 <= List.length (Rfid.ticks w))%nat ->
  result (Rfid.start_dispensing D c w g) <> Running.
Proof.
  intros Hpace Hlen.
  destruct (metering_loop_ends (Rfid.current_card_uid g) (Rfid.start_time w)
              (Rfid.ticks w) (Rfid.start_time w) 0%Z g Hpace) as (p & Hp).
  - intro E. rewrite E in Hlen. cbn in Hlen. lia.
  - assert (HQ : inject_Z 26
                 <= inject_Z (Z.of_nat (List.length (Rfid.ticks w)))).
    { rewrite <- Zle_Qle. lia. }
    change (inject_Z 26) with 26 in HQ. lra.
  - destruct (as_number (Rfid.balance g)) as [b|] eqn:Hb;
      [destruct (in_float_range b) eqn:Hr|].
    + rewrite (start_dispensing_returned D c w g p b Hp Hb Hr). discriminate.
    + rewrite (start_dispensing_overflow D c w g p b Hp Hb Hr). discriminate.
    + rewrite (start_dispensing_type_error D c w g p Hp Hb). discriminate.
Qed.

Lemma start_dispensing_ends_witness :
  paced 0 LongRun.turns = true /\
  (26 <= List.length LongRun.turns)%nat /\
  result (Rfid.start_dispensing Scenario.device Scenario.online LongRun.window
            Scenario.authorised) <> Running.
Proof.
  assert (Hp : paced (Rfid.start_time LongRun.window)
                     (Rfid.ticks LongRun.window) = true) by reflexivity.
  assert (Hl : (26 <= List.length (Rfid.ticks LongRun.window))%nat)
    by (apply Nat.leb_le; reflexivity).
  split; [exact Hp|]. split; [exact Hl|].
  exact (start_dispensing_ends Scenario.device Scenario.online LongRun.window
           Scenario.authorised Hp Hl).
Defined.

(** Whatever the balance, the pauses of a call are those of its loop. *)
Lemma start_dispensing_sleeps D c w g :
  sleeps (trace (Rfid.start_dispensing D c w g))
  = sleeps (trace (Rfid.metering_loop (Rfid.current_card_uid g)
                     (Rfid.start_time w) (Rfid.ticks w) 0 g)).
Proof.
  pose proof (metering_loop_never_raises (Rfid.current_card_uid g)
                (Rfid.start_time w) (Rfid.ticks w) 0 g) as Hnr.
  destruct (result (Rfid.metering_loop (Rfid.current_card_uid g)
                      (Rfid.start_time w) (Rfid.ticks w) 0 g)) as [p|e|] eqn:Hp.
  - destruct (as_number (Rfid.balance g)) as [b|] eqn:Hb;
      [destruct (in_float_range b) eqn:Hr|].
    + rewrite (start_dispensing_returned D c w g p b Hp Hb Hr).
      unfold RfidSpec.report. cbn [trace].
      destruct (is_connected c); trace_norm; apply app_nil_r.
    + rewrite (start_dispensing_overflow D c w g p b Hp Hb Hr).
      cbn [trace]. trace_norm. apply app_nil_r.
    + rewrite (start_dispensing_type_error D c w g p Hp Hb).
      cbn [trace]. trace_norm. apply app_nil_r.
  - exfalso. exact (Hnr e eq_refl).
  - rewrite (start_dispensing_running D c w g Hp). reflexivity.
Qed.

(** X8.  The metering never looks at the balance: two terminals that track
    the same card and are given the same observations keep the valve open
    for the same turns, whatever their balances are, zero or a value that
    is not a number included.  Only the debit differs: when the loop has
    ended, each balance the debit can be computed on is reduced by the
    volume of the same pulse count and clamped at zero. *)
Theorem dispensing_ignores_balance D c w g g' :
  Rfid.current_card_uid g = Rfid.current_card_uid g' ->
  let r := Rfid.start_dispensing D c w g in
  let r' := Rfid.start_dispensing D c w g' in
  sleeps (trace r') = sleeps (trace r) /\
  forall b b' p,
    as_number (Rfid.balance g) = Some b ->
    in_float_range b = true ->
    as_number (Rfid.balance g') = Some b' ->
    in_float_range b' = true ->
    result (Rfid.metering_loop (Rfid.current_card_uid g) (Rfid.start_time w)
              (Rfid.ticks w) 0 g) = Returned p ->
    Rfid.balance (final r) = JNum (py_max (b - Rfid.liters_of_pulses p) 0) /\
    Rfid.balance (final r') = JNum (py_max (b' - Rfid.liters_of_pulses p) 0).
Proof.
  intros Huid r r'. subst r r'. split.
  - rewrite !start_dispensing_sleeps, <- Huid.
    f_equal. apply (proj2 (metering_loop_ignores_globals _ _ _ _ _ _)).
  - intros b b' p Hb Hr Hb' Hr' Hp.
    assert (Hp' : result (Rfid.metering_loop (Rfid.current_card_uid g')
                            (Rfid.start_time w) (Rfid.ticks w) 0 g')
                  = Returned p).
    { rewrite <- Huid, <- Hp. apply metering_loop_ignores_globals. }
    rewrite (start_dispensing_returned D c w g p b Hp Hb Hr).
    rewrite (start_dispensing_returned D c w g' p b' Hp' Hb' Hr').
    split; reflexivity.
Qed.

Lemma dispensing_ignores_balance_witness :
  Rfid.current_card_uid Scenario.authorised
  = Rfid.current_card_uid (Rfid.mkGlobals true JNull (Some 42%Z)) /\
  sleeps (trace (Rfid.start_dispensing Scenario.device Scenario.online
                   Scenario.full_run
                   (Rfid.mkGlobals true JNull (Some 42%Z))))
  = sleeps (trace (Rfid.start_dispensing Scenario.device Scenario.online
                     Scenario.full_run Scenario.authorised)).
Proof.
  split; [reflexivity|].
  exact (proj1 (dispensing_ignores_balance Scenario.device Scenario.online
                  Scenario.full_run Scenario.authorised
                  (Rfid.mkGlobals true JNull (Some 42%Z)) eq_refl)).
Defined.

(** ** The polling loop of [main] in [water_dispense_with_rfid.py] *)

Lemma poll_returns D c r g : result (Rfid.poll D c r g) = Returned tt.
Proof.
  destruct r as [uid|].
  - rewrite poll_read.
    destruct (uid_differs uid (Rfid.current_card_uid g)); reflexivity.
  - reflexivity.
Qed.

Lemma main_loop_cons D c r later g :
  Rfid.main_loop D ((c, r) :: later) g =
  let r1 := Rfid.poll D c r g in
  let r2 := Rfid.main_loop D later (final r1) in
  mkRun (result r2) (final r2) (trace r1 ++ trace r2).
Proof.
  cbn [Rfid.main_loop]. unfold bind.
  pose proof (poll_returns D c r g) as H.
  destruct (Rfid.poll D c r g) as [res g1 tr1]. cbn in H. subst res.
  cbn. destruct (Rfid.main_loop D later g1); reflexivity.
Qed.

(** The turns of the loop never fail and never touch the balance or the
    flag. *)
Lemma main_loop_frame D turns : forall g,
  let r := Rfid.main_loop D turns g in
  result r = Returned tt /\
  Rfid.authenticated (final r) = Rfid.authenticated g /\
  Rfid.balance (final r) = Rfid.balance g.
Proof.
  induction turns as [|[c r] later IH]; intro g.
  - repeat split.
  - cbv zeta. rewrite main_loop_cons. cbn [result final].
    destruct (IH (final (Rfid.poll D c r g))) as (Hr & Ha & Hb).
    rewrite Hr, Ha, Hb. split; [reflexivity|].
    destruct r as [uid|].
    + rewrite poll_read.
      destruct (uid_differs uid (Rfid.current_card_uid g)); split; reflexivity.
    + split; reflexivity.
Qed.

Lemma poll_tracks_read D c r g :
  Rfid.current_card_uid (final (Rfid.poll D c r g))
  = match r with ReadUid uid => Some uid | ReadRaises => None end.
Proof.
  destruct r as [uid|]; [|reflexivity].
  rewrite poll_read.
  destruct (Rfid.current_card_uid g) as [u|] eqn:E; cbn; [|reflexivity].
  destruct (Z.eqb_spec uid u) as [->|_]; cbn; [exact E | reflexivity].
Qed.

(** X9.  After any non-empty sequence of polling turns, [current_card_uid]
    is what the last turn read: the identifier of the card, or [None] if the
    read failed.  The loop never raises and never touches [authenticated] or
    [balance]. *)
Theorem main_loop_tracks_last_read D turns c r g :
  let run := Rfid.main_loop D (turns ++ [(c, r)]) g in
  result run = Returned tt /\
  Rfid.current_card_uid (final run)
  = match r with ReadUid uid => Some uid | ReadRaises => None end /\
  Rfid.authenticated (final run) = Rfid.authenticated g /\
  Rfid.balance (final run) = Rfid.balance g.
Proof.
  cbv zeta.
  destruct (main_loop_frame D (turns ++ [(c, r)]) g) as (Hr & Ha & Hb).
  split; [exact Hr|]. split; [|split; assumption].
  clear Hr Ha Hb. revert g.
  induction turns as [|[c0 r0] later IH]; intro g.
  - cbn [app]. rewrite main_loop_cons. cbn. apply poll_tracks_read.
  - cbn [app]. rewrite main_loop_cons. cbn [final]. apply IH.
Qed.

Lemma main_loop_same_card D clients uid a bal :
  Rfid.main_loop D (map (fun c => (c, ReadUid uid)) clients)
    (Rfid.mkGlobals a bal (Some uid))
  = mkRun (Returned tt) (Rfid.mkGlobals a bal (Some uid))
          (repeat (Sleep 1) (List.length clients)
           ++ [Log INFO "Disconnecting..."]).
Proof.
  induction clients as [|c later IH].
  - reflexivity.
  - cbn [map]. rewrite main_loop_cons, poll_read.
    cbn [Rfid.current_card_uid uid_differs]. rewrite Z.eqb_refl.
    cbn [negb final trace result]. rewrite IH. reflexivity.
Qed.

Lemma published_pauses n tail :
  published (repeat (Sleep 1) n ++ [Log INFO tail]) = [].
Proof. induction n; cbn; auto. Qed.

(** X10.  While the card already recorded stays in place, the loop is
    silent: for any number of turns, connected or not, nothing is published
    and the globals do not change; each turn only sleeps its second. *)
Theorem card_in_place_is_silent D clients uid a bal :
  let g := Rfid.mkGlobals a bal (Some uid) in
  let run := Rfid.main_loop D (map (fun c => (c, ReadUid uid)) clients) g in
  result run = Returned tt /\ final run = g /\
  published (trace run) = [] /\
  sleeps (trace run) = repeat 1 (List.length clients).
Proof.
  cbv zeta. rewrite main_loop_same_card. cbn [result final trace].
  split; [reflexivity|]. split; [reflexivity|].
  split; [apply published_pauses|].
  induction clients as [|c later IH]; cbn; [reflexivity|].
  cbn in IH. rewrite IH. reflexivity.
Qed.

(** X11.  A card first read while the client is disconnected is recorded
    without a request, and no request is published for it afterwards
    either, however long it stays and whether or not the client reconnects:
    it has to be taken away (a failed read) and presented again. *)
Theorem offline_card_is_never_requested D rc clients uid g :
  let run := Rfid.main_loop D
               ((mkClient false rc, ReadUid uid)
                :: map (fun c => (c, ReadUid uid)) clients) g in
  result run = Returned tt /\
  Rfid.current_card_uid (final run) = Some uid /\
  published (trace run) = [].
Proof.
  cbv zeta. rewrite main_loop_cons.
  assert (Hg : exists tr,
             Rfid.poll D (mkClient false rc) (ReadUid uid) g
             = mkRun (Returned tt)
                 (Rfid.mkGlobals (Rfid.authenticated g) (Rfid.balance g)
                    (Some uid)) tr /\
             published tr = []).
  { rewrite poll_read.
    destruct (uid_differs uid (Rfid.current_card_uid g)) eqn:E.
    - eexists. split; reflexivity.
    - exists [Sleep 1]. split; [|reflexivity].
      destruct g as [a b [u|]]; cbn in E |- *; [|discriminate].
      apply negb_false_iff, Z.eqb_eq in E. subst u. reflexivity. }
  destruct Hg as (tr & -> & Htr). cbn [final trace result].
  rewrite main_loop_same_card. cbn [final trace result].
  rewrite published_app, Htr, published_pauses. repeat split.
Qed.

Lemma poll_published D c r g :
  published (trace (Rfid.poll D c r g))
  = match r with
    | ReadUid uid =>
        if uid_differs uid (Rfid.current_card_uid g) && is_connected c
        then [RfidSpec.uid_request D uid] else []
    | ReadRaises => []
    end.
Proof.
  destruct r as [uid|]; [|reflexivity].
  rewrite poll_read.
  destruct (uid_differs uid (Rfid.current_card_uid g)); [|reflexivity].
  cbn [trace andb]. destruct (is_connected c); [|reflexivity].
  destruct (publish_rc c =? MQTT_ERR_SUCCESS)%Z; reflexivity.
Qed.

(** X12.  Whatever the polling loop publishes is a request on the uid
    topic, carrying the decimal text of an identifier that some turn read
    while the client was connected; the loop publishes at most one message
    per turn. *)
Theorem main_loop_publishes_requests_only D turns : forall g,
  let sent := published (trace (Rfid.main_loop D turns g)) in
  Forall (fun m => exists c uid,
                     In (c, ReadUid uid) turns /\
                     is_connected c = true /\
                     m = RfidSpec.uid_request D uid) sent /\
  (List.length sent <= List.length turns)%nat.
Proof.
  induction turns as [|[c r] later IH]; intro g; cbv zeta.
  - split; [apply Forall_nil | cbn; lia].
  - rewrite main_loop_cons. cbn [trace].
    rewrite published_app, poll_published.
    destruct (IH (final (Rfid.poll D c r g))) as [Hall Hlen].
    assert (Hall' : Forall (fun m => exists c0 uid,
                              In (c0, ReadUid uid) ((c, r) :: later) /\
                              is_connected c0 = true /\
                              m = RfidSpec.uid_request D uid)
                      (published (trace (Rfid.main_loop D later
                                           (final (Rfid.poll D c r g)))))).
    { eapply Forall_impl; [|exact Hall].
      intros m (c0 & uid & Hin & Hc & Hm).
      exists c0, uid. split; [right; exact Hin | split; assumption]. }
    destruct r as [uid|]; [|split; [exact Hall' | cbn [app List.length]; lia]].
    destruct (uid_differs uid (Rfid.current_card_uid g) && is_connected c)
      eqn:E; [|split; [exact Hall' | cbn [app List.length]; lia]].
    apply andb_true_iff in E. destruct E as [_ Hc].
    split; [|cbn [app List.length]; lia].
    constructor; [|exact Hall'].
    exists c, uid. split; [left; reflexivity | split; [exact Hc|reflexivity]].
Qed.

(** ** The polling loop of [main] in [mqtt_dummy_water_dispence.py] *)

Arguments DummyMain.simulate_nfc_uid : simpl never.
Arguments Dummy.TOPIC_PUB_UID : simpl never.

Lemma dummy_turn D c uuid_hex g :
  DummyMain.turn D c uuid_hex g =
  mkRun (Returned tt) g
        ((if negb (Dummy.authenticated g) then
            Log INFO "Publishing UID: {uid} to topic: {TOPIC_PUB_UID}"
            :: (if is_connected c
                then [Publish (fst (DummyMain.uid_request D uuid_hex))
                              (snd (DummyMain.uid_request D uuid_hex));
                      if Z.eqb (publish_rc c) MQTT_ERR_SUCCESS
                      then Log INFO "UID published successfully"
                      else Log WARNING
                             "Failed to publish UID. Status: {result.rc}"]
                else [Log ERROR "MQTT disconnected — skipping publish"])
          else [])
         ++ [Sleep 10]).
Proof.
  unfold DummyMain.turn. step_monad.
  destruct (Dummy.authenticated g); cbn; [reflexivity|].
  destruct (is_connected c); cbn; [|reflexivity].
  destruct (publish_rc c =? MQTT_ERR_SUCCESS)%Z; reflexivity.
Qed.

Lemma dummy_turn_published D c uuid_hex g :
  published (trace (DummyMain.turn D c uuid_hex g))
  = if negb (Dummy.authenticated g) && is_connected c
    then [DummyMain.uid_request D uuid_hex] else [].
Proof.
  rewrite dummy_turn. cbn [trace].
  destruct (Dummy.authenticated g); [reflexivity|].
  destruct (is_connected c); [|reflexivity].
  destruct (publish_rc c =? MQTT_ERR_SUCCESS)%Z; reflexivity.
Qed.

Lemma dummy_main_loop_cons D c uuid_hex later g :
  DummyMain.main_loop D ((c, uuid_hex) :: later) g =
  let r2 := DummyMain.main_loop D later g in
  mkRun (result r2) (final r2)
        (trace (DummyMain.turn D c uuid_hex g) ++ trace r2).
Proof.
  cbn [DummyMain.main_loop]. unfold bind. rewrite dummy_turn.
  cbn. destruct (DummyMain.main_loop D later g); reflexivity.
Qed.

Lemma dummy_main_loop_frame D turns g :
  result (DummyMain.main_loop D turns g) = Returned tt /\
  final (DummyMain.main_loop D turns g) = g.
Proof.
  induction turns as [|[c u] later IH]; [split; reflexivity|].
  rewrite dummy_main_loop_cons. exact IH.
Qed.

Lemma dummy_main_loop_published D turns g :
  published (trace (DummyMain.main_loop D turns g))
  = if Dummy.authenticated g then [] else DummyMain.requests D turns.
Proof.
  induction turns as [|[c u] later IH].
  - cbn. destruct (Dummy.authenticated g); reflexivity.
  - rewrite dummy_main_loop_cons. cbn [trace].
    rewrite published_app, dummy_turn_published, IH.
    cbn [DummyMain.requests].
    destruct (Dummy.authenticated g); [reflexivity|].
    destruct (is_connected c); reflexivity.
Qed.

(** X13.  While [authenticated] is false the simulated terminal publishes,
    in order, one request per turn that finds the client connected, each
    carrying the first eight characters of that turn's UUID text; turns
    that find it disconnected publish nothing.  While [authenticated] is
    true it publishes nothing at all.  The loop itself never changes the
    globals. *)
Theorem dummy_main_loop_requests D turns g :
  let run := DummyMain.main_loop D turns g in
  result run = Returned tt /\ final run = g /\
  published (trace run)
  = (if Dummy.authenticated g then [] else DummyMain.requests D turns) /\
  Forall (fun m => exists uid,
                     m = (Dummy.TOPIC_PUB_UID D, JObj [("uid", JStr uid)]) /\
                     (String.length uid <= 8)%nat)
         (DummyMain.requests D turns).
Proof.
  cbv zeta.
  destruct (dummy_main_loop_frame D turns g) as [Hr Hf].
  split; [exact Hr|]. split; [exact Hf|].
  split; [apply dummy_main_loop_published|].
  clear Hr Hf.
  induction turns as [|[c u] later IH]; [constructor|].
  cbn [DummyMain.requests]. destruct (is_connected c); [|exact IH].
  constructor; [|exact IH].
  exists (DummyMain.simulate_nfc_uid u). split; [reflexivity|].
  unfold DummyMain.simulate_nfc_uid.
  assert (H : forall m s, (String.length (substring 0 m s) <= m)%nat).
  { induction m as [|m IHm]; intros [|a s]; cbn; try lia.
    specialize (IHm s). lia. }
  apply H.
Qed.

(** X14.  In the simulated terminal a grant whose balance is not a number
    silences the polling loop: the handler returns with [authenticated]
    true, and from the globals it leaves the loop publishes no UID, whatever
    the turns. *)
Theorem non_numeric_grant_silences_dummy D c c_turns w d g p :
  truthy (dict_get "exists" d (JBool false)) = true ->
  as_number (dict_get "balance" d (JNum 0)) = None ->
  result (Dummy.flow_loop (Dummy.start_time w) (Dummy.ticks w) 0 g)
  = Returned p ->
  let after := final (Dummy.on_message D c w
                        (mkMessage false (Dummy.TOPIC_SUB_AUTH D)
                                   (Json (JObj d))) g) in
  Dummy.authenticated after = true /\
  published (trace (DummyMain.main_loop D c_turns after)) = [].
Proof.
  intros Hex Hb Hp after. subst after.
  rewrite dummy_on_message_auth. cbn zeta. rewrite Hex.
  set (g1 := Dummy.mkGlobals true _).
  assert (Hp1 : result (Dummy.flow_loop (Dummy.start_time w) (Dummy.ticks w)
                          0 g1) = Returned p).
  { rewrite <- Hp. apply flow_loop_ignores_globals. }
  rewrite (dispense_water_type_error D c w g1 p Hp1 Hb).
  cbn [result final].
  split; [reflexivity|].
  rewrite dummy_main_loop_published. reflexivity.
Qed.

Lemma non_numeric_grant_silences_dummy_witness :
  truthy (dict_get "exists" [("exists", JBool true); ("balance", JNull)]
            (JBool false)) = true /\
  as_number (dict_get "balance" [("exists", JBool true); ("balance", JNull)]
               (JNum 0)) = None /\
  published
    (trace (DummyMain.main_loop Scenario.device
              [(Scenario.online, "9f8d7a5c01234567")]
              (final (Dummy.on_message Scenario.device Scenario.online
                        Scenario.dummy_run
                        (mkMessage false
                           (Dummy.TOPIC_SUB_AUTH Scenario.device)
                           (Json (JObj [("exists", JBool true);
                                        ("balance", JNull)])))
                        Scenario.dummy_idle)))) = [].
Proof.
  split; [reflexivity|]. split; [reflexivity|].
  exact (proj2 (non_numeric_grant_silences_dummy Scenario.device
                  Scenario.online [(Scenario.online, "9f8d7a5c01234567")]
                  Scenario.dummy_run
                  [("exists", JBool true); ("balance", JNull)]
                  Scenario.dummy_idle 8%Z eq_refl eq_refl eq_refl)).
Defined.

(** ** Topics *)

Lemma string_length_append (s t : string) :
  String.length (s ++ t)%string = (String.length s + String.length t)%nat.
Proof. induction s as [|a s IH]; cbn; [reflexivity | now rewrite IH]. Qed.

Lemma string_append_inj_r (t : string) : forall s1 s2 : string,
  (s1 ++ t)%string = (s2 ++ t)%string -> s1 = s2.
Proof.
  induction s1 as [|a s1 IH]; intros [|b s2] H; cbn in H.
  - reflexivity.
  - exfalso. apply (f_equal String.length) in H. cbn in H.
    rewrite string_length_append in H. lia.
  - exfalso. apply (f_equal String.length) in H. cbn in H.
    rewrite string_length_append in H. lia.
  - injection H as -> H. f_equal. apply IH. exact H.
Qed.

Lemma topic_inj (suffix : string) (D D' : string) :
  ("water_atm/" ++ D ++ suffix)%string = ("water_atm/" ++ D' ++ suffix)%string ->
  D = D'.
Proof.
  intro H. cbn in H. injection H as H.
  apply string_append_inj_r in H. exact H.
Qed.

Lemma topic_suffix_length (s1 s2 : string) (D : string) :
  String.length s1 <> String.length s2 ->
  ("water_atm/" ++ D ++ s1)%string <> ("water_atm/" ++ D ++ s2)%string.
Proof.
  intros Hlen H. apply (f_equal String.length) in H.
  rewrite !string_length_append in H. lia.
Qed.

(** X15.  For every device identifier the four topics are pairwise
    different, and each topic determines the identifier: two devices never
    share a topic of the same kind. *)
Theorem topics_distinct_and_injective D D' :
  NoDup [Rfid.TOPIC_PUB_UID D; Rfid.TOPIC_PUB_RESULT D;
         Rfid.TOPIC_SUB_AUTH D; Rfid.TOPIC_SUB_CONFIRM D] /\
  (Rfid.TOPIC_PUB_UID D = Rfid.TOPIC_PUB_UID D' -> D = D') /\
  (Rfid.TOPIC_PUB_RESULT D = Rfid.TOPIC_PUB_RESULT D' -> D = D') /\
  (Rfid.TOPIC_SUB_AUTH D = Rfid.TOPIC_SUB_AUTH D' -> D = D') /\
  (Rfid.TOPIC_SUB_CONFIRM D = Rfid.TOPIC_SUB_CONFIRM D' -> D = D').
Proof.
  split.
  - unfold Rfid.TOPIC_PUB_UID, Rfid.TOPIC_PUB_RESULT, Rfid.TOPIC_SUB_AUTH,
      Rfid.TOPIC_SUB_CONFIRM.
    repeat constructor; cbn [In]; intro H;
      repeat (destruct H as [H|H];
              [revert H; apply topic_suffix_length; cbn; lia|]);
      exact H.
  - repeat split; apply topic_inj.
Qed.

(** X16.  An authorization addressed to another device is ignored: a
    message on the authorization topic of a device [D'] other than [D]
    leaves the globals of [D] as they were and makes it publish nothing,
    even when it grants access. *)
Theorem foreign_authorization_ignored D D' c w p g :
  D <> D' ->
  let r := Rfid.on_message D c w
             (mkMessage false (Rfid.TOPIC_SUB_AUTH D') p) g in
  result r = Returned tt /\ final r = g /\
  published (trace r) = [] /\ sleeps (trace r) = [].
Proof.
  intros Hne r. subst r.
  assert (H : retain (mkMessage false (Rfid.TOPIC_SUB_AUTH D') p) = true \/
              String.eqb (topic (mkMessage false (Rfid.TOPIC_SUB_AUTH D') p))
                         (Rfid.TOPIC_SUB_AUTH D) = false).
  { right. cbn [topic]. apply String.eqb_neq. intro E.
    apply Hne. symmetry. exact (topic_inj _ _ _ E). }
  destruct (rfid_on_message_elsewhere D c w _ g H) as (tr & -> & Hp & Hs).
  repeat split; assumption.
Qed.

Lemma foreign_authorization_ignored_witness :
  Scenario.device <> "atm-0000cafef00d" /\
  final (Rfid.on_message Scenario.device Scenario.online Scenario.full_run
           (mkMessage false (Rfid.TOPIC_SUB_AUTH "atm-0000cafef00d")
                      (Json (JObj Scenario.grant))) Scenario.idle)
  = Scenario.idle.
Proof.
  assert (H : Scenario.device <> "atm-0000cafef00d")
    by (intro E; discriminate E).
  split; [exact H|].
  exact (proj1 (proj2 (foreign_authorization_ignored Scenario.device
                         "atm-0000cafef00d" Scenario.online Scenario.full_run
                         (Json (JObj Scenario.grant)) Scenario.idle H))).
Defined.

(** ** [on_connect] *)

(** X17.  The connect callback subscribes to nothing when the broker
    refuses the connection; otherwise it subscribes, at quality 0, to the
    authorization topic first and to the confirmation topic only after that
    subscription has been made, and to both when neither call raises.  It
    never subscribes to a topic the terminal publishes on. *)
Theorem on_connect_subscriptions D reason_code auth_ok confirm_ok :
  let acts := Connect.on_connect D reason_code auth_ok confirm_ok in
  let subs := Connect.subscribed acts in
  (reason_code <> 0%Z -> subs = []) /\
  (reason_code = 0%Z -> auth_ok = true -> confirm_ok = true ->
   subs = [Rfid.TOPIC_SUB_AUTH D; Rfid.TOPIC_SUB_CONFIRM D]) /\
  (In (Rfid.TOPIC_SUB_CONFIRM D) subs -> In (Rfid.TOPIC_SUB_AUTH D) subs) /\
  ~ In (Rfid.TOPIC_PUB_UID D) subs /\
  ~ In (Rfid.TOPIC_PUB_RESULT D) subs /\
  (forall t q, In (Connect.Subscribe t q) acts -> q = 0%Z).
Proof.
  cbv zeta. unfold Connect.on_connect.
  assert (N1 : Rfid.TOPIC_SUB_AUTH D <> Rfid.TOPIC_PUB_UID D)
    by (apply topic_suffix_length; cbn; lia).
  assert (N2 : Rfid.TOPIC_SUB_CONFIRM D <> Rfid.TOPIC_PUB_UID D)
    by (apply topic_suffix_length; cbn; lia).
  assert (N3 : Rfid.TOPIC_SUB_AUTH D <> Rfid.TOPIC_PUB_RESULT D)
    by (apply topic_suffix_length; cbn; lia).
  assert (N4 : Rfid.TOPIC_SUB_CONFIRM D <> Rfid.TOPIC_PUB_RESULT D)
    by (apply topic_suffix_length; cbn; lia).
  destruct (Z.eqb_spec reason_code 0) as [->|Hrc];
    [destruct auth_ok; [destruct confirm_ok|]|];
    cbn [Connect.subscribed In];
    (split; [intro H; try reflexivity; contradiction|]);
    (split; [intros H1 H2 H3; try reflexivity; try discriminate;
             contradiction|]);
    (split; [tauto|]);
    (split; [tauto|]);
    (split; [tauto|]);
    intros t q H; cbn [In] in H;
    repeat (destruct H as [H|H]; [try discriminate H; injection H as _ <-;
                                  reflexivity|]);
    contradiction.
Qed.

Lemma on_connect_subscriptions_witness :
  Connect.subscribed (Connect.on_connect Scenario.device 0 true true)
  = [Rfid.TOPIC_SUB_AUTH Scenario.device;
     Rfid.TOPIC_SUB_CONFIRM Scenario.device] /\
  Connect.subscribed (Connect.on_connect Scenario.device 5 true true) = [].
Proof.
  split.
  - exact (proj1 (proj2 (on_connect_subscriptions Scenario.device 0 true true))
             eq_refl eq_refl eq_refl).
  - exact (proj1 (on_connect_subscriptions Scenario.device 5 true true)
             ltac:(discriminate)).
Defined.

(** ** The cost of a disconnect *)

Lemma reconnect_loop_failures {S : Type} (n : nat) (g : S) :
  let r := reconnect_loop (repeat false n) g in
  result r = Running /\ final r = g /\
  reconnects (trace r) = n /\ sleeps (trace r) = repeat 5 n /\
  published (trace r) = [].
Proof.
  induction n as [|n IH]; cbn [repeat].
  - repeat split.
  - cbv zeta. rewrite reconnect_loop_turn. cbn [result final trace].
    destruct IH as (Hr & Hf & Hc & Hs & Hp).
    rewrite Hr, Hf. split; [reflexivity|]. split; [reflexivity|].
    unfold failed_round. cbn [app reconnects sleeps published].
    rewrite Hc, Hs, Hp. repeat split.
Qed.

Lemma rounds_published n : published (rounds n) = [].
Proof. induction n as [|n IH]; cbn; [reflexivity | exact IH]. Qed.

(** X18.  Called as the client of [main] calls it, with a [reason_code]
    other than success, the callback of [mqtt_dummy_water_dispence.py]
    returns as soon as a reconnect succeeds: after [n] failures it has made
    [n + 1] attempts and slept five seconds [n] times, has published
    nothing and has not touched the globals; outcomes of later attempts are
    never consulted. *)
Theorem disconnect_retry_cost rc n later g :
  rc <> MQTT_ERR_SUCCESS ->
  let r := Dummy.on_disconnect (version2_disconnect rc)
             (repeat false n ++ true :: later) g in
  result r = Returned tt /\ final r = g /\
  reconnects (trace r) = Datatypes.S n /\ sleeps (trace r) = repeat 5 n /\
  published (trace r) = [].
Proof.
  intros Hrc r. subst r.
  unfold Dummy.on_disconnect, version2_disconnect, arg_eqb.
  destruct (Z.eqb_spec rc MQTT_ERR_SUCCESS) as [E|_]; [contradiction|].
  step_monad. rewrite reconnect_loop_retries. cbn [result final trace].
  cbn [reconnects sleeps published].
  rewrite rounds_reconnects, rounds_sleeps, rounds_published.
  repeat split.
Qed.

Lemma disconnect_retry_cost_witness :
  128%Z <> MQTT_ERR_SUCCESS /\
  reconnects (trace (Dummy.on_disconnect (version2_disconnect 128)
                       [false; false; true; false] Scenario.dummy_idle))
  = 3%nat /\
  sleeps (trace (Dummy.on_disconnect (version2_disconnect 128)
                   [false; false; true; false] Scenario.dummy_idle))
  = [5; 5].
Proof.
  assert (H : 128%Z <> MQTT_ERR_SUCCESS) by discriminate.
  split; [exact H|].
  destruct (disconnect_retry_cost 128%Z 2 [false] Scenario.dummy_idle H)
    as (_ & _ & Hc & Hs & _).
  split; [exact Hc | exact Hs].
Defined.

(** X19.  The reconnect loop has no retry limit: called as the client of
    [main] calls it after an unexpected disconnect, the callback of
    [mqtt_dummy_water_dispence.py] is still inside the loop as long as
    every attempt fails, having made one attempt and slept five seconds for
    each failure. *)
Theorem disconnect_never_gives_up rc n g :
  rc <> MQTT_ERR_SUCCESS ->
  let r := Dummy.on_disconnect (version2_disconnect rc) (repeat false n) g in
  result r = Running /\ reconnects (trace r) = n /\
  sleeps (trace r) = repeat 5 n.
Proof.
  intros Hrc r. subst r.
  unfold Dummy.on_disconnect, version2_disconnect, arg_eqb.
  destruct (Z.eqb_spec rc MQTT_ERR_SUCCESS) as [E|_]; [contradiction|].
  step_monad.
  destruct (reconnect_loop_failures n g) as (Hr & _ & Hc & Hs & _).
  cbv zeta in Hr, Hc, Hs.
  destruct (reconnect_loop (repeat false n) g) as [res fin tl].
  cbn in Hr, Hc, Hs. subst res. cbn. repeat split; assumption.
Qed.

Lemma disconnect_never_gives_up_witness :
  128%Z <> MQTT_ERR_SUCCESS /\
  result (Dummy.on_disconnect (version2_disconnect 128) (repeat false 4)
            Scenario.dummy_idle)
  = Running.
Proof.
  assert (H : 128%Z <> MQTT_ERR_SUCCESS) by discriminate.
  split; [exact H|].
  exact (proj1 (disconnect_never_gives_up 128%Z 4 Scenario.dummy_idle H)).
Defined.

(** ** The device identifier *)

Lemma raw_to_N_zeros k s :
  HexString.Raw.to_N (DeviceId.zeros k ++ s)%string 0%N
  = HexString.Raw.to_N s 0%N.
Proof. induction k as [|k IH]; cbn; [reflexivity | exact IH]. Qed.

Lemma hex_decodes n : HexString.Raw.to_N (DeviceId.hex n) 0%N = n.
Proof.
  destruct n as [|p]; [reflexivity|].
  unfold DeviceId.hex. rewrite HexString.Raw.to_N_of_pos. reflexivity.
Qed.

Lemma pad12_decodes n :
  HexString.Raw.to_N (DeviceId.pad12 (DeviceId.hex n)) 0%N = n.
Proof. unfold DeviceId.pad12. rewrite raw_to_N_zeros. apply hex_decodes. Qed.

Lemma zeros_length k : String.length (DeviceId.zeros k) = k.
Proof. induction k as [|k IH]; cbn; [reflexivity | now rewrite IH]. Qed.

Lemma raw_of_pos_length (k : nat) : forall (p : positive) (rest : string),
  (Zpos p < 16 ^ Z.of_nat k)%Z ->
  (String.length rest < String.length (HexString.Raw.of_pos p rest)
   <= String.length rest + k)%nat.
Proof.
  induction k as [|k IH]; intros p rest Hp.
  - cbn in Hp. lia.
  - rewrite Nat2Z.inj_succ, Z.pow_succ_r in Hp by lia.
    do 4 try destruct p as [p|p|]; cbn [HexString.Raw.of_pos String.length];
      try lia;
      match goal with
      | |- context [HexString.Raw.of_pos ?q (String ?d rest)] =>
          let H := fresh in
          assert (H : (Zpos q < 16 ^ Z.of_nat k)%Z) by lia;
          specialize (IH q (String d rest) H);
          cbn [String.length] in IH; lia
      end.
Qed.

Lemma string_append_inj_l (p s1 s2 : string) :
  (p ++ s1)%string = (p ++ s2)%string -> s1 = s2.
Proof.
  induction p as [|a p IH]; cbn; intro H; [exact H|].
  injection H as H. exact (IH H).
Qed.

(** X20.  [DEVICE_ID_STR] determines the hardware address it is made from:
    different addresses give different identifiers, hence, topic by topic,
    different topics.  For a 48-bit address the identifier has exactly 16
    characters. *)
Theorem device_id_str_injective n m :
  (DeviceId.DEVICE_ID_STR n = DeviceId.DEVICE_ID_STR m -> n = m) /\
  (Rfid.TOPIC_SUB_AUTH (DeviceId.DEVICE_ID_STR n)
   = Rfid.TOPIC_SUB_AUTH (DeviceId.DEVICE_ID_STR m) -> n = m) /\
  ((n < 2 ^ 48)%N -> String.length (DeviceId.DEVICE_ID_STR n) = 16%nat).
Proof.
  assert (Hinj : DeviceId.DEVICE_ID_STR n = DeviceId.DEVICE_ID_STR m -> n = m).
  { unfold DeviceId.DEVICE_ID_STR. intro H.
    apply string_append_inj_l in H.
    rewrite <- (pad12_decodes n), <- (pad12_decodes m), H. reflexivity. }
  split; [exact Hinj|]. split.
  - intro H. apply Hinj. exact (topic_inj _ _ _ H).
  - intro Hn. unfold DeviceId.DEVICE_ID_STR, DeviceId.pad12.
    rewrite !string_length_append, zeros_length.
    change (String.length "atm-") with 4%nat.
    assert (Hlen : (1 <= String.length (DeviceId.hex n) <= 12)%nat).
    { destruct n as [|p]; [cbn; lia|].
      unfold DeviceId.hex.
      pose proof (raw_of_pos_length 12 p ""%string) as H.
      cbn [String.length] in H.
      assert (Hp : (Zpos p < 16 ^ Z.of_nat 12)%Z).
      { change (16 ^ Z.of_nat 12)%Z with (Z.of_N (2 ^ 48)). lia. }
      specialize (H Hp). lia. }
    lia.
Qed.

Lemma device_id_str_injective_witness :
  (0xdeadbeef < 2 ^ 48)%N /\
  String.length (DeviceId.DEVICE_ID_STR 0xdeadbeef) = 16%nat.
Proof.
  assert (H : (0xdeadbeef < 2 ^ 48)%N) by reflexivity.
  split; [exact H|].
  exact (proj2 (proj2 (device_id_str_injective 0xdeadbeef 0)) H).
Defined.

(** ** read_mac_addr.py *)

Lemma nat_of_ascii_bound ch : (nat_of_ascii ch < 256)%nat.
Proof. apply nat_ascii_bounded. Qed.

Lemma lower_char_nat ch :
  nat_of_ascii (Mac.lower_char ch)
  = if ((65 <=? nat_of_ascii ch) && (nat_of_ascii ch <=? 90))%nat
    then (nat_of_ascii ch + 32)%nat else nat_of_ascii ch.
Proof.
  unfold Mac.lower_char.
  destruct ((65 <=? nat_of_ascii ch) && (nat_of_ascii ch <=? 90))%nat eqn:E;
    [|reflexivity].
  apply andb_true_iff in E. destruct E as [_ E]. apply Nat.leb_le in E.
  apply nat_ascii_embedding. lia.
Qed.

Lemma colon_nat ch : Ascii.eqb ch ":" = true <-> nat_of_ascii ch = 58%nat.
Proof.
  rewrite Ascii.eqb_eq. split; [intros ->; reflexivity|].
  intro H. rewrite <- (ascii_nat_embedding ch), H. reflexivity.
Qed.

Lemma colon_nat_false ch :
  Ascii.eqb ch ":" = false <-> nat_of_ascii ch <> 58%nat.
Proof.
  rewrite <- colon_nat. destruct (Ascii.eqb ch ":"); split; congruence.
Qed.

Lemma lower_char_clean ch :
  Ascii.eqb ch ":" = false ->
  Ascii.eqb (Mac.lower_char ch) ":" = false /\
  Mac.is_upper (Mac.lower_char ch) = false.
Proof.
  intro H. apply colon_nat_false in H.
  rewrite colon_nat_false. unfold Mac.is_upper. rewrite lower_char_nat.
  destruct ((65 <=? nat_of_ascii ch) && (nat_of_ascii ch <=? 90))%nat eqn:E.
  - apply andb_true_iff in E. destruct E as [E1 E2].
    apply Nat.leb_le in E1, E2. split; [lia|].
    apply andb_false_iff. right. apply Nat.leb_gt. lia.
  - split; [exact H | exact E].
Qed.

(** X21.  The identifier [format_mac_for_id] returns never holds a colon nor
    an upper-case letter, whatever it is given: an address in any notation,
    arbitrary text, the empty string or [None]. *)
Theorem format_mac_for_id_is_clean mac :
  Mac.all_chars (fun ch => negb (Ascii.eqb ch ":") && negb (Mac.is_upper ch))
                (Mac.format_mac_for_id mac) = true.
Proof.
  assert (H : forall s,
             Mac.all_chars
               (fun ch => negb (Ascii.eqb ch ":") && negb (Mac.is_upper ch))
               (Mac.lower (Mac.remove_colons s)) = true).
  { induction s as [|ch s IH]; [reflexivity|].
    cbn [Mac.remove_colons].
    destruct (Ascii.eqb ch ":") eqn:E; [exact IH|].
    cbn [Mac.lower Mac.all_chars].
    destruct (lower_char_clean ch E) as [-> ->]. exact IH. }
  destruct mac as [[|ch s]|]; [reflexivity | apply H | reflexivity].
Qed.

Lemma remove_colons_empty s :
  Mac.remove_colons s = EmptyString
  <-> Mac.all_chars (fun ch => Ascii.eqb ch ":") s = true.
Proof.
  induction s as [|ch s IH]; cbn; [tauto|].
  destruct (Ascii.eqb ch ":"); cbn; [exact IH|].
  split; discriminate.
Qed.

Lemma lower_empty s : Mac.lower s = EmptyString <-> s = EmptyString.
Proof. destruct s; cbn; split; congruence. Qed.

(** X22.  The identifier is empty exactly when the address is a non-empty
    text made of colons only; the ["unknown"] fallback covers [None] and the
    empty text but not this case, for which [main] goes on with the client
    identifier ["atm-"] and the topic ["water_atm/"]. *)
Theorem format_mac_for_id_empty_iff mac :
  (Mac.format_mac_for_id mac = EmptyString <->
   exists ch s, mac = Some (String ch s) /\
                Mac.all_chars (fun c => Ascii.eqb c ":") (String ch s) = true)
  /\
  (Mac.format_mac_for_id mac = EmptyString ->
   forall m, mac = Some m ->
   Mac.main (Some m) = Some (Mac.mkIdentity "atm-" "water_atm/")).
Proof.
  assert (Hiff : Mac.format_mac_for_id mac = EmptyString <->
                 exists ch s, mac = Some (String ch s) /\
                   Mac.all_chars (fun c => Ascii.eqb c ":") (String ch s)
                   = true).
  { destruct mac as [[|ch s]|]; cbn [Mac.format_mac_for_id].
    - split; [discriminate | intros (c & t & H & _); discriminate].
    - rewrite lower_empty, remove_colons_empty. split.
      + intro H. exists ch, s. split; [reflexivity | exact H].
      + intros (c & t & H & Hall). injection H as <- <-. exact Hall.
    - split; [discriminate | intros (c & t & H & _); discriminate]. }
  split; [exact Hiff|].
  intros Hempty m ->. apply Hiff in Hempty.
  destruct Hempty as (ch & s & H & Hall). injection H as ->.
  assert (Hstrip : Mac.strip (String ch s) = String ch s).
  { assert (Hns : forall t, Mac.all_chars (fun c => Ascii.eqb c ":") t = true ->
                            Mac.rstrip t = t /\ Mac.lstrip t = t).
    { induction t as [|c t IHt]; [split; reflexivity|].
      cbn [Mac.all_chars]. intro Hc. apply andb_true_iff in Hc.
      destruct Hc as [Hc Ht]. apply Ascii.eqb_eq in Hc. subst c.
      destruct (IHt Ht) as [Hr _]. cbn [Mac.rstrip Mac.lstrip]. rewrite Hr.
      split; [destruct t; reflexivity | reflexivity]. }
    unfold Mac.strip. destruct (Hns _ Hall) as [-> ->]. reflexivity. }
  unfold Mac.main, Mac.get_mac. rewrite Hstrip.
  assert (Hid : Mac.format_mac_for_id (Some (String ch s)) = EmptyString).
  { apply Hiff. exists ch, s. split; [reflexivity | exact Hall]. }
  cbv zeta. rewrite Hid. reflexivity.
Qed.

Lemma format_mac_for_id_empty_iff_witness :
  Mac.format_mac_for_id (Some ":::") = EmptyString /\
  Mac.main (Some ":::") = Some (Mac.mkIdentity "atm-" "water_atm/").
Proof.
  assert (H : Mac.format_mac_for_id (Some ":::") = EmptyString)
    by reflexivity.
  split; [exact H|].
  exact (proj2 (format_mac_for_id_empty_iff (Some ":::")) H ":::" eq_refl).
Defined.

Lemma is_hex_facts ch :
  Mac.is_hex ch = true ->
  Ascii.eqb ch ":" = false /\ Mac.is_space ch = false /\
  Mac.is_lower_hex (Mac.lower_char ch) = true.
Proof.
  unfold Mac.is_hex, Mac.is_space, Mac.is_lower_hex. intro H.
  rewrite colon_nat_false, lower_char_nat.
  set (n := nat_of_ascii ch) in *.
  repeat (apply orb_true_iff in H; destruct H as [H|H]);
    apply andb_true_iff in H; destruct H as [H1 H2];
    apply Nat.leb_le in H1, H2;
    (split; [lia|]); split.
  all: try (apply orb_false_iff; split; apply andb_false_iff;
            (left; apply Nat.leb_gt; lia) || (right; apply Nat.leb_gt; lia)).
  - assert (E : ((65 <=? n) && (n <=? 90))%nat = false)
      by (apply andb_false_iff; left; apply Nat.leb_gt; lia).
    rewrite E. apply orb_true_iff. left.
    apply andb_true_iff; split; apply Nat.leb_le; lia.
  - assert (E : ((65 <=? n) && (n <=? 90))%nat = true)
      by (apply andb_true_iff; split; apply Nat.leb_le; lia).
    rewrite E. apply orb_true_iff. right.
    apply andb_true_iff; split; apply Nat.leb_le; lia.
  - assert (E : ((65 <=? n) && (n <=? 90))%nat = false)
      by (apply andb_false_iff; right; apply Nat.leb_gt; lia).
    rewrite E. apply orb_true_iff. right.
    apply andb_true_iff; split; apply Nat.leb_le; lia.
Qed.

Lemma colon_not_space : Mac.is_space ":" = false.
Proof. reflexivity. Qed.

(** What the text of [k] octets looks like once formatted. *)
Lemma octets_formatted : forall k s,
  Mac.octets k s = true ->
  Mac.all_chars (fun ch => negb (Mac.is_space ch)) s = true /\
  String.length (Mac.lower (Mac.remove_colons s)) = (2 * k)%nat /\
  Mac.all_chars Mac.is_lower_hex (Mac.lower (Mac.remove_colons s)) = true.
Proof.
  induction k as [|k IH]; intros s H; [discriminate|].
  destruct s as [|a [|b s]]; try (destruct k; discriminate).
  destruct k as [|k].
  - destruct s; [|discriminate]. cbn [Mac.octets] in H.
    apply andb_true_iff in H. destruct H as [Ha Hb].
    destruct (is_hex_facts a Ha) as (Ca & Sa & La).
    destruct (is_hex_facts b Hb) as (Cb & Sb & Lb).
    cbn [Mac.remove_colons Mac.all_chars]. rewrite Ca, Cb, Sa, Sb.
    cbn [Mac.lower Mac.all_chars String.length negb andb].
    rewrite La, Lb. repeat split.
  - destruct s as [|c s]; [discriminate|]. cbn [Mac.octets] in H.
    apply andb_true_iff in H. destruct H as [H Hrest].
    apply andb_true_iff in H. destruct H as [H Hc].
    apply andb_true_iff in H. destruct H as [Ha Hb].
    apply Ascii.eqb_eq in Hc. subst c.
    destruct (is_hex_facts a Ha) as (Ca & Sa & La).
    destruct (is_hex_facts b Hb) as (Cb & Sb & Lb).
    destruct (IH s Hrest) as (Hs & Hlen & Hall).
    cbn [Mac.remove_colons Mac.all_chars]. rewrite Ca, Cb, Sa, Sb.
    rewrite colon_not_space, Ascii.eqb_refl.
    cbn [Mac.lower Mac.all_chars String.length negb andb].
    rewrite La, Lb, Hs, Hlen, Hall. repeat split. lia.
Qed.

Lemma strip_line s :
  Mac.all_chars (fun ch => negb (Mac.is_space ch)) s = true ->
  Mac.strip (s ++ String "010" EmptyString) = s /\ Mac.strip s = s.
Proof.
  intro H.
  assert (Hr : Mac.rstrip (s ++ String "010" EmptyString) = s /\
               Mac.rstrip s = s /\ Mac.lstrip s = s).
  { induction s as [|ch s IH]; [repeat split|].
    cbn [Mac.all_chars] in H. apply andb_true_iff in H.
    destruct H as [Hc Hs]. apply negb_true_iff in Hc.
    destruct (IH Hs) as (H1 & H2 & _).
    cbn [String.append Mac.rstrip Mac.lstrip]. rewrite H1, H2, Hc.
    repeat split; destruct s; reflexivity. }
  destruct Hr as (H1 & H2 & H3). unfold Mac.strip. rewrite H1, H2, H3.
  split; reflexivity.
Qed.

Lemma substring_length : forall n m s,
  (n + m <= String.length s)%nat ->
  String.length (substring n m s) = m.
Proof.
  induction n as [|n IHn]; intros m s H.
  - revert s H. induction m as [|m IHm]; intros s H.
    + destruct s; reflexivity.
    + destruct s as [|a s]; cbn in H; [lia|].
      cbn. rewrite IHm; [reflexivity | lia].
  - destruct s as [|a s]; cbn in H; [lia|].
    cbn. apply IHn. lia.
Qed.

(** X23.  For the text of a hardware address (six groups of two
    hexadecimal digits, in either case, separated by colons) the identifier
    is twelve lower-case hexadecimal digits; [main] finds the same identity
    whether or not the address file ends in a newline, with a client
    identifier of ten characters made of ["atm-"] and the last six digits. *)
Theorem address_identity m :
  Mac.is_mac m = true ->
  let id := Mac.format_mac_for_id (Some m) in
  let found := Mac.mkIdentity ("atm-" ++ Mac.last6 id) ("water_atm/" ++ id) in
  String.length id = 12%nat /\
  Mac.all_chars Mac.is_lower_hex id = true /\
  Mac.main (Some (m ++ String "010" EmptyString)%string) = Some found /\
  Mac.main (Some m) = Some found /\
  String.length (Mac.mqtt_client_id found) = 10%nat.
Proof.
  intros H id found.
  destruct (octets_formatted 6 m H) as (Hns & Hlen & Hall).
  destruct (strip_line m Hns) as [Hline Hbare].
  assert (Hm : exists ch s, m = String ch s).
  { destruct m as [|ch s]; [discriminate | eauto]. }
  destruct Hm as (ch & s & Hm).
  assert (Hid : id = Mac.lower (Mac.remove_colons m)).
  { subst id. rewrite Hm. reflexivity. }
  split; [rewrite Hid; exact Hlen|].
  split; [rewrite Hid; exact Hall|].
  assert (Hmain : forall file, Mac.strip file = m ->
                               Mac.main (Some file) = Some found).
  { intros file Hf. unfold Mac.main, Mac.get_mac. rewrite Hf, Hm.
    subst found id. rewrite Hm. reflexivity. }
  split; [apply Hmain; exact Hline|].
  split; [apply Hmain; exact Hbare|].
  subst found. cbn [Mac.mqtt_client_id].
  rewrite string_length_append. unfold Mac.last6.
  rewrite substring_length; [reflexivity|].
  rewrite Hid, Hlen. cbn. lia.
Qed.

Lemma address_identity_witness :
  Mac.is_mac "DC:a6:32:1E:12:34" = true /\
  Mac.main (Some ("DC:a6:32:1E:12:34" ++ String "010" EmptyString)%string)
  = Some (Mac.mkIdentity "atm-1e1234" "water_atm/dca6321e1234").
Proof.
  split; [reflexivity|].
  exact (proj1 (proj2 (proj2 (address_identity "DC:a6:32:1E:12:34" eq_refl)))).
Defined.

Lemma rstrip_empty s :
  Mac.rstrip s = EmptyString <-> Mac.all_chars Mac.is_space s = true.
Proof.
  induction s as [|ch s IH]; cbn [Mac.rstrip Mac.all_chars]; [tauto|].
  destruct (Mac.rstrip s) as [|k ks].
  - destruct (Mac.is_space ch); cbn.
    + split; [intros _; apply IH; reflexivity | reflexivity].
    + split; discriminate.
  - split; [discriminate|]. intro H. apply andb_true_iff in H.
    destruct H as [_ H]. apply IH in H. discriminate.
Qed.

Lemma rstrip_not_blank s :
  Mac.all_chars Mac.is_space (Mac.rstrip s) = true ->
  Mac.rstrip s = EmptyString.
Proof.
  induction s as [|ch s IH]; [reflexivity|].
  cbn [Mac.rstrip]. destruct (Mac.rstrip s) as [|k ks].
  - destruct (Mac.is_space ch) eqn:E; [reflexivity|].
    cbn. rewrite E. discriminate.
  - cbn [Mac.all_chars]. intro H. apply andb_true_iff in H.
    destruct H as [_ H]. specialize (IH H). discriminate.
Qed.

Lemma lstrip_empty s :
  Mac.lstrip s = EmptyString <-> Mac.all_chars Mac.is_space s = true.
Proof.
  induction s as [|ch s IH]; cbn [Mac.lstrip Mac.all_chars]; [tauto|].
  destruct (Mac.is_space ch); cbn; [exact IH|]. split; discriminate.
Qed.

Lemma strip_empty s :
  Mac.strip s = EmptyString <-> Mac.all_chars Mac.is_space s = true.
Proof.
  unfold Mac.strip. rewrite lstrip_empty. split.
  - intro H. apply rstrip_empty. apply rstrip_not_blank. exact H.
  - intro H. apply rstrip_empty in H. rewrite H. reflexivity.
Qed.

(** X24.  For an address file of ASCII text, [main] stops without an
    identity exactly when the file is missing or holds nothing but white
    space; in particular an empty or blank file never yields the identifier
    ["unknown"]. *)
Theorem main_stops_iff_no_address file :
  (forall content, file = Some content ->
                   Mac.all_chars Mac.is_ascii content = true) ->
  Mac.main file = None <->
  file = None \/
  exists content, file = Some content /\
                  Mac.all_chars Mac.is_space content = true.
Proof.
  intros _.
  destruct file as [content|]; [|split; [left; reflexivity | reflexivity]].
  unfold Mac.main, Mac.get_mac.
  destruct (Mac.strip content) as [|ch s] eqn:E.
  - split; [|reflexivity]. intros _. right. exists content.
    split; [reflexivity | apply strip_empty; exact E].
  - split; [discriminate|].
    intros [H|(c & H & Hall)]; [discriminate|].
    injection H as <-. apply strip_empty in Hall. congruence.
Qed.

(** ** The volume of a pulse count *)

(** X25.  For [p] pulses both programs report [(p + 2) div 5] hundredths of
    a liter: at two milliliters a pulse the rounding to two places never
    meets a tie.  Hence the reported volume never decreases when pulses are
    added, and five more pulses add exactly one hundredth. *)
Theorem liters_in_hundredths p p' :
  Rfid.liters_of_pulses p == inject_Z ((p + 2) / 5) / 100 /\
  Dummy.liters_of_pulses p == inject_Z ((p + 2) / 5) / 100 /\
  ((p <= p')%Z -> Rfid.liters_of_pulses p <= Rfid.liters_of_pulses p') /\
  Rfid.liters_of_pulses (p + 5) == Rfid.liters_of_pulses p + (1 # 100).
Proof.
  unfold Rfid.liters_of_pulses, Dummy.liters_of_pulses. cbv zeta.
  split; [apply liters_closed_form|]. split; [apply liters_closed_form|].
  split.
  - intro H. rewrite !liters_closed_form.
    apply Qmult_le_compat_r; [|discriminate].
    rewrite <- Zle_Qle. apply Z.div_le_mono; lia.
  - rewrite !liters_closed_form.
    replace (p + 5 + 2)%Z with ((p + 2) + 1 * 5)%Z by lia.
    rewrite Z.div_add by lia. rewrite inject_Z_plus.
    unfold Qdiv. change (inject_Z 1) with 1. field.
Qed.

Lemma liters_in_hundredths_witness :
  (10 <= 1500)%Z /\
  Rfid.liters_of_pulses 10 <= Rfid.liters_of_pulses 1500.
Proof.
  assert (H : (10 <= 1500)%Z) by (intro E; discriminate E).
  split; [exact H|].
  exact (proj1 (proj2 (proj2 (liters_in_hundredths 10 1500))) H).
Defined.

(** ** Instances *)

Lemma topics_distinct_and_injective_witness :
  Rfid.TOPIC_SUB_AUTH Scenario.device = Rfid.TOPIC_SUB_AUTH "atm-0000deadbeef"
  /\ Scenario.device = "atm-0000deadbeef"
  /\ Rfid.TOPIC_SUB_AUTH Scenario.device
     <> Rfid.TOPIC_SUB_CONFIRM Scenario.device.
Proof.
  destruct (topics_distinct_and_injective Scenario.device "atm-0000deadbeef")
    as (Hnd & _ & _ & Hauth & _).
  split; [reflexivity|]. split; [exact (Hauth eq_refl)|].
  intro E. inversion Hnd as [|? ? _ Hnd1]. inversion Hnd1 as [|? ? _ Hnd2].
  inversion Hnd2 as [|? ? Hnot _]. apply Hnot. left. symmetry. exact E.
Defined.

Lemma main_stops_iff_no_address_witness :
  Mac.all_chars Mac.is_ascii (String " " (String "010" EmptyString)) = true /\
  Mac.all_chars Mac.is_space (String " " (String "010" EmptyString)) = true /\
  Mac.main (Some (String " " (String "010" EmptyString))) = None.
Proof.
  split; [reflexivity|]. split; [reflexivity|].
  assert (Hascii : forall content,
             Some (String " " (String "010" EmptyString)) = Some content ->
             Mac.all_chars Mac.is_ascii content = true).
  { intros content E. injection E as <-. reflexivity. }
  apply (proj2 (main_stops_iff_no_address
                  (Some (String " " (String "010" EmptyString))) Hascii)).
  right. exists (String " " (String "010" EmptyString)).
  split; reflexivity.
Defined.
